(** * A shallow embedding of [src/main.py]

    The module is a FastAPI application: three pydantic schemas, a
    diagnostics route and three form handlers that build a record, try to
    persist it through an optional [create_document], and answer.

    Python [str] values are sequences of Unicode code points; dictionaries
    are finite maps with string keys; exceptions and the mutation of local
    dictionaries are threaded through a state-and-exception monad. *)

From Stdlib Require Import ZArith QArith String Ascii Decimal DecimalZ.
From stdpp Require Import base option list gmap fin_maps.

Local Set Warnings "-register-all".
Local Open Scope Z_scope.

(** ** Python strings *)

(** One character is one code point, so [length] is Python's [len] and
    [take n] is the slice [s[:n]]. *)
Abbreviation char := N (only parsing).
Abbreviation str := (list N) (only parsing).

(** An ASCII literal of the source. *)
Definition py (s : string) : str :=
  N_of_ascii <$> list_ascii_of_string s.
Arguments py : simpl never.

(** The three pictographs of the diagnostics literals. *)
Definition CHECK_MARK : str := [0x2705%N].
Definition CROSS_MARK : str := [0x274C%N].
Definition WARNING_SIGN : str := [0x26A0%N; 0xFE0F%N].

(** ** Python values: JSON data, records and responses *)

Inductive tzinfo := UTC.

(** A [datetime]: the instant as POSIX seconds and the attached zone
    ([None] for a naive value). *)
Record datetime := { posix : Q; tz : option tzinfo }.

Inductive value :=
| VNone
| VBool (b : bool)
| VInt (z : Z)
| VFloat (q : Q)
| VStr (s : str)
| VDatetime (d : datetime)
| VList (l : list value)
| VDict (d : gmap str value).

Abbreviation dict := (gmap str value).

(** ** Exceptions and the handler monad *)

(** Every exception the program meets is an instance of [Exception]:
    either FastAPI's [HTTPException], or any other one, known by the text
    [str(e)] gives. *)
Inductive exn :=
| HTTPException (status_code : Z) (detail : str)
| Exception (msg : str).

Inductive outcome (A : Type) :=
| Return (a : A)
| Raise (e : exn).
Arguments Return {A} a.
Arguments Raise {A} e.

(** A computation over a mutable state [S] that may raise; what was
    written to the state before a [raise] stays written. *)
Definition M (S A : Type) : Type := S → outcome A * S.

#[export] Instance M_ret {S} : MRet (M S) :=
  λ A a s, (Return a, s).

#[export] Instance M_bind {S} : MBind (M S) :=
  λ A B k m s,
    match m s with
    | (Return a, s') => k a s'
    | (Raise e, s') => (Raise e, s')
    end.

Definition raise {S A} (e : exn) : M S A := λ s, (Raise e, s).

Definition lift {S A} (o : outcome A) : M S A := λ s, (o, s).

Definition get {S} : M S S := λ s, (Return s, s).

Definition put {S} (s : S) : M S unit := λ _, (Return tt, s).

(** [try: body except Exception as e: handler e]. *)
Definition try_except {S A} (body : M S A) (handler : exn → M S A) : M S A :=
  λ s,
    match body s with
    | (Return a, s') => (Return a, s')
    | (Raise e, s') => handler e s'
    end.

(** [d[k] = v] on the dictionary held in the state. *)
Definition setitem (k : str) (v : value) : M dict unit :=
  λ d, (Return tt, <[k := v]> d).

(** ** Numbers and text *)

Fixpoint uint_str (d : Decimal.uint) : str :=
  match d with
  | Nil => []
  | D0 d => 48%N :: uint_str d
  | D1 d => 49%N :: uint_str d
  | D2 d => 50%N :: uint_str d
  | D3 d => 51%N :: uint_str d
  | D4 d => 52%N :: uint_str d
  | D5 d => 53%N :: uint_str d
  | D6 d => 54%N :: uint_str d
  | D7 d => 55%N :: uint_str d
  | D8 d => 56%N :: uint_str d
  | D9 d => 57%N :: uint_str d
  end.

(** [str(n)] of an [int]: its decimal numeral, with a leading minus sign
    below zero. *)
Definition int_str (n : Z) : str :=
  match Z.to_int n with
  | Decimal.Pos d => uint_str d
  | Decimal.Neg d => 45%N :: uint_str d
  end.

(** [int(x)] of a [float]: the fraction is dropped, rounding towards
    zero. Every finite float is a rational number. *)
Definition int_of_float (x : Q) : Z :=
  Z.quot (Qnum x) (Z.pos (Qden x)).

(** [str(e)]; Starlette prints an [HTTPException] as status and detail. *)
Definition exn_str (e : exn) : str :=
  match e with
  | HTTPException sc d => int_str sc ++ py ": " ++ d
  | Exception msg => msg
  end.

Definition is_digit (c : char) : bool := (48 <=? c)%N && (c <=? 57)%N.

(** Reading a decimal numeral back. *)
Fixpoint digits_uint (s : str) : option Decimal.uint :=
  match s with
  | [] => Some Nil
  | c :: s' =>
      d ← digits_uint s';
      match c with
      | 48%N => Some (D0 d) | 49%N => Some (D1 d) | 50%N => Some (D2 d)
      | 51%N => Some (D3 d) | 52%N => Some (D4 d) | 53%N => Some (D5 d)
      | 54%N => Some (D6 d) | 55%N => Some (D7 d) | 56%N => Some (D8 d)
      | 57%N => Some (D9 d) | _ => None
      end
  end.

Definition str_int (s : str) : option Z :=
  match s with
  | [] => None
  | 45%N :: s' =>
      match s' with [] => None | _ => Z.of_int ∘ Decimal.Neg <$> digits_uint s' end
  | _ => Z.of_int ∘ Decimal.Pos <$> digits_uint s
  end.

(** ** The world around a request *)

(** One call received by the store, as a spy on [create_document] would
    record it. *)
Record call := { collection : str; document : dict }.

(** What changes while a request is served: how often the system clock
    has been read, and the calls the store has received. *)
Record World := { clock_reads : nat; calls : list call }.

(** Looking up an attribute of an object: absent ([AttributeError]),
    present, or raising something else. *)
Inductive attr :=
| AttrMissing
| AttrValue (v : value)
| AttrRaises (e : exn).

(** The [db] handle of the absent [database] module, as far as
    [test_database] touches it. *)
Record Db := { db_name : attr; list_collection_names : outcome (list str) }.

(** The module-level names bound at import time and the process
    environment. [clock n] is the POSIX time that the [n]-th reading of
    the system clock yields; [create_document] is given the calls made so
    far, so that it may answer each call differently. *)
Record Env := {
  clock : nat → Q;
  db : option Db;
  create_document : option (list call → str → dict → outcome value);
  environ : gmap str str
}.

(** [os.getenv(k)] in a condition: set and not empty. *)
Definition getenv_truthy (e : Env) (k : str) : bool :=
  match environ e !! k with
  | Some (_ :: _) => true
  | _ => false
  end.

(** [datetime.now(tz)]: one reading of the clock. *)
Definition datetime_now (e : Env) (zone : option tzinfo) : M World datetime :=
  λ w, (Return {| posix := clock e (clock_reads w); tz := zone |},
        {| clock_reads := S (clock_reads w); calls := calls w |}).

(** [d.timestamp()]. *)
Definition timestamp (d : datetime) : Q := posix d.

(** Calling the store: the call is recorded, then answered. *)
Definition invoke (f : list call → str → dict → outcome value)
    (coll : str) (doc : dict) : M World value :=
  λ w, (f (calls w) coll doc,
        {| clock_reads := clock_reads w;
           calls := calls w ++ [{| collection := coll; document := doc |}] |}).

(** ** Schemas *)

Record ContactPayload := { name : str; email : str; message : str }.

Record CheckoutPayload := { courseId : str; plan : option str }.

Record AnalyticsEvent := {
  event : str;
  properties : option dict;
  user : option dict
}.

(** The kinds of validation error pydantic reports for these schemas. *)
Inductive error_type :=
| missing
| string_type
| string_too_short
| string_too_long
| value_error
| dict_type
| model_attributes_type.

(** One entry of a validation report: where, and what. *)
Record ErrorDetails := { loc : list str; err : error_type }.

(** [str] with [Field(min_length=lo, max_length=hi)]. *)
Definition constrained_str (lo : nat) (hi : option nat) (v : value)
    : error_type + str :=
  match v with
  | VStr s =>
      if (length s <? lo)%nat then inl string_too_short
      else match hi with
           | Some h => if (h <? length s)%nat then inl string_too_long else inr s
           | None => inr s
           end
  | _ => inl string_type
  end.

(** [Dict[str, Any]]: any JSON object. *)
Definition any_dict (v : value) : error_type + dict :=
  match v with
  | VDict d => inr d
  | _ => inl dict_type
  end.

(** [Optional[T]]: [None] or a [T]. *)
Definition optional {A} (validate : value → error_type + A) (v : value)
    : error_type + option A :=
  match v with
  | VNone => inr None
  | _ => match validate v with inl e => inl e | inr a => inr (Some a) end
  end.

(** A field declared with [...]: it must be present. *)
Definition required {A : Type} (d : dict) (k : str)
    (validate : value → error_type + A) : error_type + A :=
  match d !! k with
  | None => inl missing
  | Some v => validate v
  end.

(** A field declared with a default: used when the key is absent. *)
Definition defaulted {A : Type} (d : dict) (k : str) (default : A)
    (validate : value → error_type + A) : error_type + A :=
  match d !! k with
  | None => inr default
  | Some v => validate v
  end.

(** The report entry of a field that failed, if it did. *)
Definition report {A} (k : str) (r : error_type + A) : list ErrorDetails :=
  match r with
  | inl e => [{| loc := [py "body"; k]; err := e |}]
  | inr _ => []
  end.

Definition not_an_object : list ErrorDetails :=
  [{| loc := [py "body"]; err := model_attributes_type |}].

(** ** What FastAPI sends back *)

Inductive content :=
| Json (v : value)
| Detail (d : str)
| ValidationErrors (errs : list ErrorDetails)
| PlainText (t : str).

Record http_response := { status : Z; body : content }.

(** A handler's return value is sent with status 200, an [HTTPException]
    with its own status and detail, anything else as a bare 500. *)
Definition respond (o : outcome dict) : http_response :=
  match o with
  | Return r => {| status := 200; body := Json (VDict r) |}
  | Raise (HTTPException sc d) => {| status := sc; body := Detail d |}
  | Raise (Exception _) =>
      {| status := 500; body := PlainText (py "Internal Server Error") |}
  end.

(** A [POST] route whose parameter is a schema: the body is validated
    first, and the handler runs only on a valid payload. *)
Definition post {P} (validate : value → list ErrorDetails + P)
    (handler : P → M World dict) (request_body : value)
    : World → http_response * World :=
  λ w,
    match validate request_body with
    | inl errs => ({| status := 422; body := ValidationErrors errs |}, w)
    | inr payload => let '(o, w') := handler payload w in (respond o, w')
    end.

(** A [GET] route without parameters. *)
Definition get_route (handler : outcome dict) : http_response :=
  respond handler.

(** ** The application *)

Section App.

(** [EmailStr] hands the address to the [email-validator] package, which
    rejects it or returns its normalised form. *)
Variable validate_email : str → option str.

Variable env : Env.

Definition email_str (v : value) : error_type + str :=
  match v with
  | VStr s =>
      match validate_email s with
      | Some e => inr e
      | None => inl value_error
      end
  | _ => inl string_type
  end.

Definition validate_ContactPayload (request_body : value)
    : list ErrorDetails + ContactPayload :=
  match request_body with
  | VDict d =>
      let r_name := required d (py "name") (constrained_str 2 (Some 120%nat)) in
      let r_email := required d (py "email") email_str in
      let r_message :=
        required d (py "message") (constrained_str 4 (Some 4000%nat)) in
      match r_name, r_email, r_message with
      | inr n, inr e, inr m => inr {| name := n; email := e; message := m |}
      | _, _, _ =>
          inl (report (py "name") r_name ++ report (py "email") r_email
               ++ report (py "message") r_message)
      end
  | _ => inl not_an_object
  end.

Definition validate_CheckoutPayload (request_body : value)
    : list ErrorDetails + CheckoutPayload :=
  match request_body with
  | VDict d =>
      let r_course := required d (py "courseId") (constrained_str 1 None) in
      let r_plan :=
        defaulted d (py "plan") (Some (py "standard"))
          (optional (constrained_str 0 None)) in
      match r_course, r_plan with
      | inr c, inr p => inr {| courseId := c; plan := p |}
      | _, _ => inl (report (py "courseId") r_course ++ report (py "plan") r_plan)
      end
  | _ => inl not_an_object
  end.

Definition validate_AnalyticsEvent (request_body : value)
    : list ErrorDetails + AnalyticsEvent :=
  match request_body with
  | VDict d =>
      let r_event := required d (py "event") (constrained_str 2 (Some 64%nat)) in
      let r_props := defaulted d (py "properties") None (optional any_dict) in
      let r_user := defaulted d (py "user") None (optional any_dict) in
      match r_event, r_props, r_user with
      | inr e, inr p, inr u => inr {| event := e; properties := p; user := u |}
      | _, _, _ =>
          inl (report (py "event") r_event ++ report (py "properties") r_props
               ++ report (py "user") r_user)
      end
  | _ => inl not_an_object
  end.

(** [model_dump()] of each schema. *)
Definition opt_value {A} (f : A → value) (o : option A) : value :=
  match o with
  | Some a => f a
  | None => VNone
  end.

Definition ContactPayload_dump (p : ContactPayload) : dict :=
  <[py "message" := VStr (message p)]>
    (<[py "email" := VStr (email p)]> {[ py "name" := VStr (name p) ]}).

Definition AnalyticsEvent_dump (ev : AnalyticsEvent) : dict :=
  <[py "user" := opt_value VDict (user ev)]>
    (<[py "properties" := opt_value VDict (properties ev)]>
       {[ py "event" := VStr (event ev) ]}).

(** *** GET /test *)

Definition hasattr_name (d : Db) : outcome bool :=
  match db_name d with
  | AttrMissing => Return false
  | AttrValue _ => Return true
  | AttrRaises e => Raise e
  end.

Definition getattr_name (d : Db) : outcome value :=
  match db_name d with
  | AttrMissing => Raise (Exception (py "'Database' object has no attribute 'name'"))
  | AttrValue v => Return v
  | AttrRaises e => Raise e
  end.

Definition initial_response : dict :=
  <[py "collections" := VList []]>
    (<[py "connection_status" := VStr (py "Not Connected")]>
       (<[py "database_name" := VNone]>
          (<[py "database_url" := VNone]>
             (<[py "database" := VStr (CROSS_MARK ++ py " Not Available")]>
                {[ py "backend" := VStr (CHECK_MARK ++ py " Running") ]})))).

Definition test_database_body : M dict dict :=
  put initial_response;;
  try_except
    (match db env with
     | Some d =>
         setitem (py "database") (VStr (CHECK_MARK ++ py " Available"));;
         setitem (py "database_url") (VStr (CHECK_MARK ++ py " Configured"));;
         has ← lift (hasattr_name d);
         nm ← (if has : bool then lift (getattr_name d)
               else mret (VStr (CHECK_MARK ++ py " Connected")));
         setitem (py "database_name") nm;;
         setitem (py "connection_status") (VStr (py "Connected"));;
         try_except
           (collections ← lift (list_collection_names d);
            setitem (py "collections") (VList (VStr <$> take 10 collections));;
            setitem (py "database") (VStr (CHECK_MARK ++ py " Connected & Working")))
           (λ e, setitem (py "database")
                   (VStr (WARNING_SIGN ++ py "  Connected but Error: "
                          ++ take 50 (exn_str e))))
     | None =>
         setitem (py "database")
           (VStr (WARNING_SIGN ++ py "  Available but not initialized"))
     end)
    (λ e, setitem (py "database")
            (VStr (CROSS_MARK ++ py " Error: " ++ take 50 (exn_str e))));;
  setitem (py "database_url")
    (VStr (if getenv_truthy env (py "DATABASE_URL")
           then CHECK_MARK ++ py " Set" else CROSS_MARK ++ py " Not Set"));;
  setitem (py "database_name")
    (VStr (if getenv_truthy env (py "DATABASE_NAME")
           then CHECK_MARK ++ py " Set" else CROSS_MARK ++ py " Not Set"));;
  get.

(** The local [response] starts unbound; only the returned value, or the
    exception, leaves the function. *)
Definition test_database : outcome dict := fst (test_database_body ∅).

Definition GET_test : http_response := get_route test_database.

(** *** POST /api/contact *)

Definition contact_doc (payload : ContactPayload) (now : datetime) : dict :=
  <[py "received_at" := VDatetime now]>
    (<[py "_type" := VStr (py "contact")]> (ContactPayload_dump payload)).

Definition submit_contact (payload : ContactPayload) : M World dict :=
  now ← datetime_now env (Some UTC);
  let doc := contact_doc payload now in
  match create_document env with
  | Some f =>
      try_except
        (_id ← invoke f (py "contact") doc;
         mret (<[py "id" := _id]> {[ py "ok" := VBool true ]}))
        (λ e, raise (HTTPException 500 (py "Failed to save contact: " ++ exn_str e)))
  | None => mret {[ py "ok" := VBool true ]}
  end.

Definition POST_contact : value → World → http_response * World :=
  post validate_ContactPayload submit_contact.

(** *** POST /api/checkout *)

Definition session_id_of (now : datetime) : str :=
  py "sess_" ++ int_str (int_of_float (timestamp now)).

Definition session_url_of (session_id : str) (payload : CheckoutPayload)
    : str :=
  py "/checkout/success?sid=" ++ session_id ++ py "&course=" ++ courseId payload.

Definition checkout_record (payload : CheckoutPayload)
    (session_id session_url : str) (now : datetime) : dict :=
  <[py "created_at" := VDatetime now]>
    (<[py "session_url" := VStr session_url]>
       (<[py "session_id" := VStr session_id]>
          (<[py "plan" := opt_value VStr (plan payload)]>
             (<[py "courseId" := VStr (courseId payload)]>
                {[ py "_type" := VStr (py "checkout") ]})))).

Definition create_checkout (payload : CheckoutPayload) : M World dict :=
  local_now ← datetime_now env None;
  let session_id := session_id_of local_now in
  let session_url := session_url_of session_id payload in
  created_at ← datetime_now env (Some UTC);
  let record := checkout_record payload session_id session_url created_at in
  match create_document env with
  | Some f =>
      try_except (invoke f (py "checkout") record;; mret tt) (λ _, mret tt)
  | None => mret tt
  end;;
  mret (<[py "url" := VStr session_url]>
          (<[py "sessionId" := VStr session_id]> {[ py "ok" := VBool true ]})).

Definition POST_checkout : value → World → http_response * World :=
  post validate_CheckoutPayload create_checkout.

(** *** POST /api/analytics *)

Definition analytics_record (ev : AnalyticsEvent) (now : datetime) : dict :=
  <[py "received_at" := VDatetime now]>
    (<[py "_type" := VStr (py "analytics")]> (AnalyticsEvent_dump ev)).

Definition track_event (ev : AnalyticsEvent) : M World dict :=
  now ← datetime_now env (Some UTC);
  let record := analytics_record ev now in
  match create_document env with
  | Some f =>
      try_except (invoke f (py "analytics") record;; mret tt) (λ _, mret tt)
  | None => mret tt
  end;;
  mret {[ py "ok" := VBool true ]}.

Definition POST_analytics : value → World → http_response * World :=
  post validate_AnalyticsEvent track_event.

End App.

(** ** Reading a URL back

    How a client such as [urllib.parse.parse_qsl] takes a URL apart: the
    query is what follows the first question mark, its fields are cut at
    every ampersand, and each field at its first equals sign. Percent
    escapes are left alone. *)

Fixpoint split_on (sep : char) (s : str) : list str :=
  match s with
  | [] => [[]]
  | c :: s' =>
      if (c =? sep)%N then [] :: split_on sep s'
      else match split_on sep s' with
           | w :: ws => (c :: w) :: ws
           | [] => [[c]]
           end
  end.

(** [s.partition(sep)]: the text before and after the first [sep]. *)
Fixpoint partition (sep : char) (s : str) : str * str :=
  match s with
  | [] => ([], [])
  | c :: s' =>
      if (c =? sep)%N then ([], s')
      else let '(a, b) := partition sep s' in (c :: a, b)
  end.

Definition parse_qsl (query : str) : list (str * str) :=
  partition 61%N <$> split_on 38%N query.

Fixpoint assoc (k : str) (kvs : list (str * str)) : option str :=
  match kvs with
  | [] => None
  | (k', v) :: rest => if decide (k' = k) then Some v else assoc k rest
  end.

(** The value a client finds for parameter [k] in [url]. *)
Definition query_param (k : str) (url : str) : option str :=
  assoc k (parse_qsl (snd (partition 63%N url))).

(** ** Vocabulary of the statements *)

Ltac run_handler :=
  unfold mbind, mret, M_bind, M_ret, try_except, invoke, datetime_now, raise,
    lift, setitem, put, get; simpl.

(** The clock reading a handler starts from. *)
Definition reading (env : Env) (w : World) (zone : option tzinfo) : datetime :=
  {| posix := clock env (clock_reads w); tz := zone |}.

Definition after_read (w : World) : World :=
  {| clock_reads := S (clock_reads w); calls := calls w |}.

Definition checkout_response (session_id session_url : str) : dict :=
  <[py "url" := VStr session_url]>
    (<[py "sessionId" := VStr session_id]> {[ py "ok" := VBool true ]}).

(** Distinct literal keys are told apart by evaluation. *)
Ltac key_ne := vm_compute; discriminate.

Ltac lookup_literal :=
  repeat first
    [ rewrite lookup_insert_eq
    | rewrite lookup_insert_ne by key_ne
    | rewrite lookup_singleton_eq
    | rewrite lookup_singleton_ne by key_ne ].

(** Membership of a character in a literal is settled by evaluation. *)
Ltac literal_elem := apply (bool_decide_unpack _); vm_compute; exact I.

(** The three ways a contact request is at fault in its fields. *)
Definition name_out_of_range (d : gmap str value) : Prop :=
  ∃ s, d !! py "name" = Some (VStr s) ∧ (length s < 2 ∨ 120 < length s)%nat.

Definition email_malformed (validate_email : str → option str)
    (d : gmap str value) : Prop :=
  ∃ s, d !! py "email" = Some (VStr s) ∧ validate_email s = None.

Definition message_out_of_range (d : gmap str value) : Prop :=
  ∃ s, d !! py "message" = Some (VStr s) ∧ (length s < 4 ∨ 4000 < length s)%nat.

(** The reading of C1 that the code does not meet: the detail of the
    answer keeps at most the first [n] characters of the error text. *)
Definition contact_detail_truncated_at (n : nat) : Prop :=
  ∀ (validate_email : str → option str) (env : Env)
    (request_body : value) (payload : ContactPayload) (w : World)
    (f : list call → str → gmap str value → outcome value) (e : exn),
    validate_ContactPayload validate_email request_body = inr payload →
    create_document env = Some f →
    f (calls w) (py "contact")
      (contact_doc payload {| posix := clock env (clock_reads w); tz := Some UTC |})
    = Raise e →
    body (fst (POST_contact validate_email env request_body w))
    = Detail (py "Failed to save contact: " ++ take n (exn_str e)).

(** What the diagnostics write under ["database"], case by case. *)
Definition database_status (env : Env) : str :=
  match db env with
  | None => WARNING_SIGN ++ py "  Available but not initialized"
  | Some d =>
      match db_name d with
      | AttrRaises e => CROSS_MARK ++ py " Error: " ++ take 50 (exn_str e)
      | _ =>
          match list_collection_names d with
          | Raise e =>
              WARNING_SIGN ++ py "  Connected but Error: " ++ take 50 (exn_str e)
          | Return _ => CHECK_MARK ++ py " Connected & Working"
          end
      end
  end.

Definition presence_flag (env : Env) (k : str) : value :=
  VStr (if getenv_truthy env k
        then CHECK_MARK ++ py " Set" else CROSS_MARK ++ py " Not Set").

(** A deployment with a store named ["shop"]. *)
Definition shop_env : Env :=
  {| clock := λ _, 0%Q;
     db := Some {| db_name := AttrValue (VStr (py "shop"));
                   list_collection_names := Return [py "contact"; py "checkout"] |};
     create_document := None;
     environ := {[ py "DATABASE_NAME" := py "shop" ]} |}.

(** *** Sample requests and deployments *)

(** A stand-in for the address validator: an address needs an at sign. *)
Definition needs_at_sign (s : str) : option str :=
  if decide (64%N ∈ s) then Some s else None.

(** A clock read at 1700000000.2, .4, .6, .8 and so on. *)
Definition sample_clock (n : nat) : Q := Qmake (17000000002 + 2 * Z.of_nat n) 10.

Definition disk_full : exn := Exception (py "disk full").

Definition failing_store (log : list call) (coll : str)
    (doc : gmap str value) : outcome value :=
  Raise disk_full.

(** A deployment whose store refuses every write. *)
Definition failing_env : Env :=
  {| clock := sample_clock; db := None; create_document := Some failing_store;
     environ := ∅ |}.

Definition fresh : World := {| clock_reads := 0; calls := [] |}.

Definition later : World := {| clock_reads := 3; calls := [] |}.

Definition jo_fields : gmap str value :=
  <[py "message" := VStr (py "Hi there")]>
    (<[py "email" := VStr (py "jo@x.com")]> {[ py "name" := VStr (py "Jo") ]}).

Definition jo_payload : ContactPayload :=
  {| name := py "Jo"; email := py "jo@x.com"; message := py "Hi there" |}.

Definition bad_fields : gmap str value :=
  <[py "message" := VStr (py "hi")]>
    (<[py "email" := VStr (py "bad")]> {[ py "name" := VStr (py "J") ]}).

Definition c1_fields : gmap str value := {[ py "courseId" := VStr (py "c1") ]}.

Definition c1_payload : CheckoutPayload :=
  {| courseId := py "c1"; plan := Some (py "standard") |}.

Definition page_view_fields : gmap str value :=
  {[ py "event" := VStr (py "page_view") ]}.

Definition page_view : AnalyticsEvent :=
  {| event := py "page_view"; properties := None; user := None |}.

(** *** The remaining routes *)

(** [GET /]. *)
Definition read_root : outcome dict :=
  Return {[ py "message" := VStr (py "Hello from FastAPI Backend!") ]}.

(** [GET /api/hello]. *)
Definition hello : outcome dict :=
  Return {[ py "message" := VStr (py "Hello from the backend API!") ]}.

(** *** Vocabulary of the further statements *)

(** How the [plan] key of a checkout body, if any, shows in the payload. *)
Definition plan_parsed (o : option value) (p : option str) : Prop :=
  match o with
  | None => p = Some (py "standard")
  | Some VNone => p = None
  | Some (VStr s) => p = Some s
  | Some _ => False
  end.

(** How an optional object of an analytics body shows in the payload. *)
Definition object_parsed (o : option value) (p : option (gmap str value)) : Prop :=
  match o with
  | None | Some VNone => p = None
  | Some (VDict m) => p = Some m
  | Some _ => False
  end.

(** The keys of the diagnostics report. *)
Definition report_keys : gset str :=
  {[ py "backend"; py "database"; py "database_url"; py "database_name";
     py "connection_status"; py "collections" ]}.

(** A store that accepts every write and numbers the documents. *)
Definition counting_store (log : list call) (coll : str)
    (doc : gmap str value) : outcome value :=
  Return (VStr (py "doc_" ++ int_str (Z.of_nat (length log)))).

Definition working_env : Env :=
  {| clock := sample_clock; db := None; create_document := Some counting_store;
     environ := ∅ |}.

Definition bare_env : Env :=
  {| clock := sample_clock; db := None; create_document := None; environ := ∅ |}.

(** The answer to the ["c1"] checkout request at 1700000000. *)
Definition c1_response : gmap str value :=
  checkout_response (py "sess_1700000000")
    (py "/checkout/success?sid=sess_1700000000&course=c1").

(** * Properties *)

(** ** Text and numbers *)

Lemma uint_str_digits (d : Decimal.uint) : forallb is_digit (uint_str d) = true.
Proof. induction d; simpl; auto. Qed.

Lemma digits_uint_str (d : Decimal.uint) : digits_uint (uint_str d) = Some d.
Proof. induction d; simpl; [done | rewrite IHd; done ..]. Qed.

Lemma uint_str_nil (d : Decimal.uint) : uint_str d = [] → d = Nil.
Proof. destruct d; simpl; congruence. Qed.

Lemma uint_str_no_minus (d : Decimal.uint) (s : str) : uint_str d ≠ 45%N :: s.
Proof. destruct d; simpl; congruence. Qed.

Lemma pos_to_uint_not_nil (p : positive) : Pos.to_uint p ≠ Nil.
Proof.
  intros H. pose proof (DecimalPos.Unsigned.of_to p) as Hp.
  rewrite H in Hp. discriminate Hp.
Qed.

Lemma str_int_unsigned (c : N) (s : str) :
  c ≠ 45%N → str_int (c :: s) = Z.of_int ∘ Decimal.Pos <$> digits_uint (c :: s).
Proof.
  intros Hc. unfold str_int. destruct c as [| p]; [done |].
  repeat (destruct p as [p | p |]; try done).
Qed.

(** The numeral [str] prints reads back as the number printed. *)
Lemma str_int_int_str (n : Z) : str_int (int_str n) = Some n.
Proof.
  unfold int_str.
  pose proof (DecimalZ.of_to n) as Hn.
  destruct (Z.to_int n) as [d | d] eqn:E.
  - destruct (uint_str d) as [| c s] eqn:Es.
    + apply uint_str_nil in Es. subst d.
      destruct n; simpl in *; discriminate.
    + assert (c ≠ 45%N) by (intros ->; by eapply uint_str_no_minus).
      rewrite str_int_unsigned by done.
      rewrite <- Es, digits_uint_str. exact (f_equal Some Hn).
  - destruct (uint_str d) as [| c s] eqn:Es.
    + apply uint_str_nil in Es. subst d.
      destruct n; simpl in *; discriminate.
    + unfold str_int. rewrite <- Es, digits_uint_str. exact (f_equal Some Hn).
Qed.

(** From the epoch on, the numeral is a non-empty run of digits. *)
Lemma int_str_digits (n : Z) :
  0 ≤ n → forallb is_digit (int_str n) = true ∧ int_str n ≠ [].
Proof.
  intros Hn. unfold int_str. destruct n as [| p | p]; [done | | lia].
  simpl. split; [apply uint_str_digits |].
  intros H. apply uint_str_nil in H. by apply pos_to_uint_not_nil in H.
Qed.

(** ** Running the handlers *)

Lemma create_checkout_run (env : Env) (payload : CheckoutPayload) (w : World) :
  let session_id := session_id_of (reading env w None) in
  let session_url := session_url_of session_id payload in
  let record :=
    checkout_record payload session_id session_url
      (reading env (after_read w) (Some UTC)) in
  ∃ w', create_checkout env payload w
          = (Return (checkout_response session_id session_url), w')
        ∧ calls w' =
            match create_document env with
            | Some _ =>
                calls w ++ [{| collection := py "checkout"; document := record |}]
            | None => calls w
            end.
Proof.
  intros session_id session_url record.
  unfold create_checkout. run_handler.
  destruct (create_document env) as [f |]; simpl; [| eauto].
  fold session_id session_url record.
  destruct (f _ _ _); simpl; eauto.
Qed.

Lemma track_event_run (env : Env) (ev : AnalyticsEvent) (w : World) :
  let record := analytics_record ev (reading env w (Some UTC)) in
  ∃ w', track_event env ev w = (Return {[ py "ok" := VBool true ]}, w')
        ∧ calls w' =
            match create_document env with
            | Some _ =>
                calls w ++ [{| collection := py "analytics"; document := record |}]
            | None => calls w
            end.
Proof.
  intros record. unfold track_event. run_handler.
  destruct (create_document env) as [f |]; simpl; [| eauto].
  fold record. destruct (f _ _ _); simpl; eauto.
Qed.

Lemma submit_contact_run (env : Env) (payload : ContactPayload) (w : World) :
  let doc := contact_doc payload (reading env w (Some UTC)) in
  let logged :=
    {| clock_reads := S (clock_reads w);
       calls := calls w ++ [{| collection := py "contact"; document := doc |}] |} in
  submit_contact env payload w =
    match create_document env with
    | Some f =>
        match f (calls w) (py "contact") doc with
        | Return _id =>
            (Return (<[py "id" := _id]> {[ py "ok" := VBool true ]}), logged)
        | Raise e =>
            (Raise (HTTPException 500 (py "Failed to save contact: " ++ exn_str e)),
             logged)
        end
    | None => (Return {[ py "ok" := VBool true ]}, after_read w)
    end.
Proof.
  intros doc logged. unfold submit_contact. run_handler.
  destruct (create_document env) as [f |]; simpl; [| done].
  fold doc. destruct (f _ _ _); done.
Qed.

(** ** What a validated payload says about the request *)

Lemma constrained_str_inv (lo : nat) (hi : option nat) (v : value) (s : str) :
  constrained_str lo hi v = inr s →
  v = VStr s ∧ (lo ≤ length s)%nat
  ∧ match hi with Some h => (length s ≤ h)%nat | None => True end.
Proof.
  unfold constrained_str. destruct v; try done.
  destruct (Nat.ltb_spec (length s0) lo); [done |].
  destruct hi as [h |].
  - destruct (Nat.ltb_spec h (length s0)); [done |].
    intros [= ->]. auto.
  - intros [= ->]. auto.
Qed.

Lemma validate_CheckoutPayload_inv (request_body : value) (payload : CheckoutPayload) :
  validate_CheckoutPayload request_body = inr payload →
  ∃ d, request_body = VDict d
       ∧ d !! py "courseId" = Some (VStr (courseId payload))
       ∧ (1 ≤ length (courseId payload))%nat
       ∧ (d !! py "plan" = None → plan payload = Some (py "standard")).
Proof.
  unfold validate_CheckoutPayload. destruct request_body as [| | | | | | | d]; try done.
  unfold required, defaulted.
  destruct (d !! py "courseId") as [v |] eqn:Ec; simpl.
  2: { destruct (d !! py "plan") as [vp |]; [destruct (optional (constrained_str 0 None) vp) |]; done. }
  destruct (constrained_str 1 None v) as [e | c] eqn:Ev.
  { destruct (d !! py "plan") as [vp |]; [destruct (optional (constrained_str 0 None) vp) |]; done. }
  apply constrained_str_inv in Ev as (-> & Hlen & _).
  destruct (d !! py "plan") as [vp |] eqn:Ep.
  - destruct (optional (constrained_str 0 None) vp); [done |]. intros [= <-]. simpl.
    exists d. repeat split; [done .. | congruence].
  - intros [= <-]. simpl. exists d. repeat split; done.
Qed.

Lemma validate_AnalyticsEvent_inv (request_body : value) (ev : AnalyticsEvent) :
  validate_AnalyticsEvent request_body = inr ev →
  ∃ d, request_body = VDict d
       ∧ d !! py "event" = Some (VStr (event ev))
       ∧ (2 ≤ length (event ev) ≤ 64)%nat.
Proof.
  unfold validate_AnalyticsEvent. destruct request_body as [| | | | | | | d]; try done.
  unfold required, defaulted.
  destruct (d !! py "event") as [v |] eqn:Ec; simpl.
  2: { destruct (d !! py "properties") as [vp |]; [destruct (optional any_dict vp) |];
       (destruct (d !! py "user") as [vu |]; [destruct (optional any_dict vu) |]); done. }
  destruct (constrained_str 2 (Some 64%nat) v) as [e | c] eqn:Ev.
  { destruct (d !! py "properties") as [vp |]; [destruct (optional any_dict vp) |];
    (destruct (d !! py "user") as [vu |]; [destruct (optional any_dict vu) |]); done. }
  apply constrained_str_inv in Ev as (-> & Hlo & Hhi).
  destruct (d !! py "properties") as [vp |]; [destruct (optional any_dict vp) |];
    (destruct (d !! py "user") as [vu |]; [destruct (optional any_dict vu) |]);
    try done; intros [= <-]; simpl; eauto.
Qed.

Lemma validate_ContactPayload_inv (validate_email : str → option str)
    (request_body : value) (payload : ContactPayload) :
  validate_ContactPayload validate_email request_body = inr payload →
  ∃ d address,
    request_body = VDict d
    ∧ d !! py "name" = Some (VStr (name payload))
    ∧ (2 ≤ length (name payload) ≤ 120)%nat
    ∧ d !! py "email" = Some (VStr address)
    ∧ validate_email address = Some (email payload)
    ∧ d !! py "message" = Some (VStr (message payload))
    ∧ (4 ≤ length (message payload) ≤ 4000)%nat.
Proof.
  unfold validate_ContactPayload. destruct request_body as [| | | | | | | d]; try done.
  unfold required.
  destruct (d !! py "name") as [vn |] eqn:Hn; [| done].
  destruct (constrained_str 2 (Some 120%nat) vn) as [? | n] eqn:En; [done |].
  apply constrained_str_inv in En as (-> & ? & ?).
  destruct (d !! py "email") as [ve |] eqn:He; [| done].
  destruct (email_str validate_email ve) as [? | e] eqn:Ee; [done |].
  destruct (d !! py "message") as [vm |] eqn:Hm; [| done].
  destruct (constrained_str 4 (Some 4000%nat) vm) as [? | m] eqn:Em; [done |].
  apply constrained_str_inv in Em as (-> & ? & ?).
  unfold email_str in Ee. destruct ve; try done.
  destruct (validate_email s) eqn:Ev; [| done]. injection Ee as ->.
  intros [= <-]. simpl in *. exists d, s. repeat split; done.
Qed.

(** ** The checkout handler *)

Lemma checkout_response_fields (session_id session_url : str) :
  checkout_response session_id session_url !! py "ok" = Some (VBool true)
  ∧ checkout_response session_id session_url !! py "sessionId"
      = Some (VStr session_id)
  ∧ checkout_response session_id session_url !! py "url"
      = Some (VStr session_url).
Proof. unfold checkout_response. repeat split; by lookup_literal. Qed.

Lemma POST_checkout_valid (env : Env) (request_body : value)
    (payload : CheckoutPayload) (w : World) :
  validate_CheckoutPayload request_body = inr payload →
  POST_checkout env request_body w
  = (respond (fst (create_checkout env payload w)),
     snd (create_checkout env payload w)).
Proof.
  intros Hv. unfold POST_checkout, post. rewrite Hv.
  by destruct (create_checkout env payload w).
Qed.

(** C2. A valid checkout request is always answered with status 200 and
    [ok], a session id and a url that are not empty, whatever the store
    does: [env] ranges over an absent [create_document], one that returns
    and one that raises. *)
Theorem checkout_always_succeeds (env : Env) (request_body : value)
    (payload : CheckoutPayload) (w : World) :
  validate_CheckoutPayload request_body = inr payload →
  (1 ≤ length (courseId payload))%nat
  ∧ ∃ session_id url,
      fst (POST_checkout env request_body w)
      = {| status := 200;
           body := Json (VDict (<[py "url" := VStr url]>
                                  (<[py "sessionId" := VStr session_id]>
                                     {[ py "ok" := VBool true ]}))) |}
      ∧ session_id ≠ [] ∧ url ≠ [].
Proof.
  intros Hv. split.
  { by destruct (validate_CheckoutPayload_inv _ _ Hv) as (d & _ & _ & Hlen & _). }
  rewrite (POST_checkout_valid _ _ _ _ Hv). simpl.
  destruct (create_checkout_run env payload w) as (w' & -> & _).
  eexists _, _. split; [reflexivity |]. split; discriminate.
Qed.

(** C5. For a valid checkout request the session id is ["sess_"] followed
    by the decimal numeral of the clock reading cut to whole seconds (the
    numeral reads back as that number and, from the epoch on, is a
    non-empty run of digits), and the url is
    ["/checkout/success?sid=" + session id + "&course=" + courseId], where
    courseId is the one of the request. *)
Theorem checkout_session_id_and_url (env : Env) (request_body : value)
    (payload : CheckoutPayload) (w : World) :
  validate_CheckoutPayload request_body = inr payload →
  let seconds := int_of_float (clock env (clock_reads w)) in
  let session_id := py "sess_" ++ int_str seconds in
  let url := py "/checkout/success?sid=" ++ session_id ++ py "&course="
             ++ courseId payload in
  fst (POST_checkout env request_body w)
  = {| status := 200;
       body := Json (VDict (<[py "url" := VStr url]>
                              (<[py "sessionId" := VStr session_id]>
                                 {[ py "ok" := VBool true ]}))) |}
  ∧ (∃ d, request_body = VDict d
          ∧ d !! py "courseId" = Some (VStr (courseId payload)))
  ∧ str_int (int_str seconds) = Some seconds
  ∧ (0 ≤ seconds →
     forallb is_digit (int_str seconds) = true ∧ int_str seconds ≠ []).
Proof.
  intros Hv seconds session_id url.
  rewrite (POST_checkout_valid _ _ _ _ Hv). simpl.
  destruct (create_checkout_run env payload w) as (w' & -> & _).
  split; [reflexivity |]. split.
  { destruct (validate_CheckoutPayload_inv _ _ Hv) as (d & -> & Hc & _). eauto. }
  split; [apply str_int_int_str | apply int_str_digits].
Qed.

(** C8. When the body of a checkout request has no [plan] key, the parsed
    payload has plan ["standard"], and so has the record built from it,
    which is the document handed to the store when one is configured. *)
Theorem checkout_plan_default (env : Env) (d : gmap str value)
    (payload : CheckoutPayload) (w : World) :
  d !! py "plan" = None →
  validate_CheckoutPayload (VDict d) = inr payload →
  plan payload = Some (py "standard")
  ∧ (∀ session_id session_url now,
       checkout_record payload session_id session_url now !! py "plan"
       = Some (VStr (py "standard")))
  ∧ (is_Some (create_document env) →
     ∃ c, calls (snd (POST_checkout env (VDict d) w)) = calls w ++ [c]
          ∧ collection c = py "checkout"
          ∧ document c !! py "plan" = Some (VStr (py "standard"))).
Proof.
  intros Hd Hv.
  destruct (validate_CheckoutPayload_inv _ _ Hv) as (d' & [= <-] & _ & _ & Hp).
  specialize (Hp Hd).
  assert (∀ session_id session_url now,
            checkout_record payload session_id session_url now !! py "plan"
            = Some (VStr (py "standard"))) as Hrec.
  { intros. unfold checkout_record. lookup_literal. by rewrite Hp. }
  split; [done |]. split; [done |].
  intros [f Hf]. rewrite (POST_checkout_valid _ _ _ _ Hv). simpl.
  destruct (create_checkout_run env payload w) as (w' & -> & Hcalls).
  rewrite Hf in Hcalls. simpl. eexists. split; [exact Hcalls |]. split; [done |].
  apply Hrec.
Qed.

(** C9. The session id depends on the clock reading only through its
    whole seconds: two checkout calls, with any payloads and in any
    states, whose readings agree after truncation answer with the same
    session id. *)
Theorem checkout_same_second_same_session (env1 env2 : Env)
    (p1 p2 : CheckoutPayload) (w1 w2 : World) :
  int_of_float (clock env1 (clock_reads w1))
  = int_of_float (clock env2 (clock_reads w2)) →
  ∃ r1 r2 session_id,
    fst (create_checkout env1 p1 w1) = Return r1
    ∧ fst (create_checkout env2 p2 w2) = Return r2
    ∧ r1 !! py "sessionId" = Some (VStr session_id)
    ∧ r2 !! py "sessionId" = Some (VStr session_id)
    ∧ session_id = py "sess_" ++ int_str (int_of_float (clock env1 (clock_reads w1))).
Proof.
  intros Hsec.
  destruct (create_checkout_run env1 p1 w1) as (w1' & -> & _).
  destruct (create_checkout_run env2 p2 w2) as (w2' & -> & _).
  eexists _, _, _. split; [reflexivity |]. split; [reflexivity |].
  split; [apply checkout_response_fields |]. split; [| reflexivity].
  unfold session_id_of, timestamp, reading. simpl. rewrite <- Hsec.
  apply checkout_response_fields.
Qed.

(** ** Taking the url apart *)

Lemma partition_app (sep : char) (a b : str) :
  sep ∉ a → partition sep (a ++ sep :: b) = (a, b).
Proof.
  induction a as [| c a IH]; intros Hsep; simpl.
  - by rewrite N.eqb_refl.
  - apply not_elem_of_cons in Hsep as [Hc Ha].
    destruct (N.eqb_spec c sep) as [-> | _]; [done |]. by rewrite IH.
Qed.

Lemma split_on_app (sep : char) (a b : str) :
  sep ∉ a → split_on sep (a ++ sep :: b) = a :: split_on sep b.
Proof.
  induction a as [| c a IH]; intros Hsep; simpl.
  - by rewrite N.eqb_refl.
  - apply not_elem_of_cons in Hsep as [Hc Ha].
    destruct (N.eqb_spec c sep) as [-> | _]; [done |]. by rewrite IH.
Qed.

Lemma uint_str_elem (d : Decimal.uint) (c : N) :
  c ∈ uint_str d → (48 ≤ c ≤ 57)%N.
Proof.
  induction d; simpl; intros Hc;
    [by apply elem_of_nil in Hc | apply elem_of_cons in Hc as [-> | Hc]; [lia | auto] ..].
Qed.

Lemma int_str_elem (n : Z) (c : N) :
  c ∈ int_str n → c = 45%N ∨ (48 ≤ c ≤ 57)%N.
Proof.
  unfold int_str. destruct (Z.to_int n) as [d | d]; intros Hc.
  - right. by eapply uint_str_elem.
  - apply elem_of_cons in Hc as [-> | Hc]; [by left | right; by eapply uint_str_elem].
Qed.

Lemma session_url_shape (now : datetime) (payload : CheckoutPayload) :
  session_url_of (session_id_of now) payload
  = py "/checkout/success"
    ++ 63%N :: (py "sid=sess_" ++ int_str (int_of_float (timestamp now)))
    ++ 38%N :: py "course=" ++ courseId payload.
Proof.
  unfold session_url_of, session_id_of.
  change (py "/checkout/success?sid=") with (py "/checkout/success" ++ 63%N :: py "sid=").
  change (py "sid=sess_") with (py "sid=" ++ py "sess_").
  change (py "&course=") with (38%N :: py "course=").
  by rewrite <- !app_assoc.
Qed.

(** With an ampersand in the course id, a client reads back a shorter
    course. *)
Lemma query_param_ampersand (now : datetime) (payload : CheckoutPayload) :
  courseId payload = py "a&b" →
  query_param (py "course") (session_url_of (session_id_of now) payload)
  = Some (py "a").
Proof.
  intros Hc. rewrite session_url_shape, Hc. unfold query_param.
  rewrite partition_app by literal_elem. cbn [snd]. unfold parse_qsl.
  rewrite split_on_app.
  - generalize (int_str (int_of_float (timestamp now))). intros ds.
    by vm_compute.
  - intros [H | H]%elem_of_app.
    + revert H. literal_elem.
    + apply int_str_elem in H. lia.
Qed.

(** An equals sign alone does no harm to a client that cuts each field at
    its first equals sign. *)
Lemma query_param_equals_sign (now : datetime) (payload : CheckoutPayload) :
  courseId payload = py "a=b" →
  query_param (py "course") (session_url_of (session_id_of now) payload)
  = Some (py "a=b").
Proof.
  intros Hc. rewrite session_url_shape, Hc. unfold query_param.
  rewrite partition_app by literal_elem. cbn [snd]. unfold parse_qsl.
  rewrite split_on_app.
  - generalize (int_str (int_of_float (timestamp now))). intros ds.
    by vm_compute.
  - intros [H | H]%elem_of_app.
    + revert H. literal_elem.
    + apply int_str_elem in H. lia.
Qed.

(** C10. The url of a valid checkout request is the plain concatenation
    ["/checkout/success?sid=" + session id + "&course=" + courseId], with
    the course id copied as it is; and there is a valid course id (["a&b"])
    for which, whatever the clock and the store, the [course] parameter a
    client reads from the url differs from the course id sent. *)
Theorem checkout_url_not_encoded :
  (∀ (env : Env) (request_body : value) (payload : CheckoutPayload) (w : World),
     validate_CheckoutPayload request_body = inr payload →
     ∃ session_id,
       fst (POST_checkout env request_body w)
       = {| status := 200;
            body := Json (VDict (checkout_response session_id
                      (py "/checkout/success?sid=" ++ session_id
                       ++ py "&course=" ++ courseId payload))) |})
  ∧ ∃ (request_body : value) (payload : CheckoutPayload),
      validate_CheckoutPayload request_body = inr payload
      ∧ request_body = VDict {[ py "courseId" := VStr (courseId payload) ]}
      ∧ ∀ (env : Env) (w : World),
          ∃ session_id url,
            fst (POST_checkout env request_body w)
            = {| status := 200;
                 body := Json (VDict (checkout_response session_id url)) |}
            ∧ query_param (py "course") url ≠ Some (courseId payload).
Proof.
  split.
  - intros env request_body payload w Hv.
    rewrite (POST_checkout_valid _ _ _ _ Hv). simpl.
    destruct (create_checkout_run env payload w) as (w' & -> & _).
    eexists. reflexivity.
  - pose (p := {| courseId := py "a&b"; plan := Some (py "standard") |}).
    exists (VDict {[ py "courseId" := VStr (py "a&b") ]}), p.
    assert (validate_CheckoutPayload (VDict {[ py "courseId" := VStr (py "a&b") ]})
            = inr p) as Hv by (by vm_compute).
    split; [exact Hv |]. split; [done |].
    intros env w. rewrite (POST_checkout_valid env _ p w Hv). cbn [fst].
    destruct (create_checkout_run env p w) as (w' & -> & _). cbn [fst].
    eexists _, _. split; [reflexivity |].
    rewrite (query_param_ampersand _ p eq_refl). by vm_compute.
Qed.

(** ** The analytics handler *)

(** C7. A valid analytics request is answered with status 200 and exactly
    [{"ok": true}], whether [create_document] is absent, returns or raises;
    the record built has [_type] ["analytics"] and a [received_at] read
    from the clock in UTC, and it is the document handed to the store when
    one is configured. *)
Theorem analytics_always_ok (env : Env) (request_body : value)
    (ev : AnalyticsEvent) (w : World) :
  validate_AnalyticsEvent request_body = inr ev →
  let now := {| posix := clock env (clock_reads w); tz := Some UTC |} in
  let record := analytics_record ev now in
  (2 ≤ length (event ev) ≤ 64)%nat
  ∧ fst (POST_analytics env request_body w)
    = {| status := 200; body := Json (VDict {[ py "ok" := VBool true ]}) |}
  ∧ record !! py "_type" = Some (VStr (py "analytics"))
  ∧ record !! py "received_at" = Some (VDatetime now)
  ∧ calls (snd (POST_analytics env request_body w))
    = match create_document env with
      | Some _ => calls w ++ [{| collection := py "analytics"; document := record |}]
      | None => calls w
      end.
Proof.
  intros Hv now record.
  split.
  { by destruct (validate_AnalyticsEvent_inv _ _ Hv) as (d & _ & _ & Hlen). }
  unfold POST_analytics, post. rewrite Hv.
  destruct (track_event_run env ev w) as (w' & -> & Hcalls).
  split; [done |]. split; [| split; [| exact Hcalls]].
  - unfold record, analytics_record. by lookup_literal.
  - unfold record, analytics_record. by lookup_literal.
Qed.

(** ** The contact handler *)

Lemma POST_contact_valid (validate_email : str → option str) (env : Env)
    (request_body : value) (payload : ContactPayload) (w : World) :
  validate_ContactPayload validate_email request_body = inr payload →
  POST_contact validate_email env request_body w
  = (respond (fst (submit_contact env payload w)),
     snd (submit_contact env payload w)).
Proof.
  intros Hv. unfold POST_contact, post. rewrite Hv.
  by destruct (submit_contact env payload w).
Qed.

(** C1, as the code has it. For a valid contact request, when
    [create_document] is configured and raises [e], the answer has status
    500 and its detail is ["Failed to save contact: "] followed by the
    whole of [str(e)]; the store has received that one call. *)
Theorem contact_store_failure_surfaced (validate_email : str → option str)
    (env : Env) (request_body : value) (payload : ContactPayload) (w : World)
    (f : list call → str → gmap str value → outcome value) (e : exn) :
  validate_ContactPayload validate_email request_body = inr payload →
  create_document env = Some f →
  f (calls w) (py "contact")
    (contact_doc payload {| posix := clock env (clock_reads w); tz := Some UTC |})
  = Raise e →
  fst (POST_contact validate_email env request_body w)
  = {| status := 500;
       body := Detail (py "Failed to save contact: " ++ exn_str e) |}
  ∧ length (calls (snd (POST_contact validate_email env request_body w)))
    = S (length (calls w)).
Proof.
  intros Hv Hf He. rewrite (POST_contact_valid _ _ _ _ _ Hv).
  rewrite submit_contact_run, Hf. unfold reading. rewrite He. simpl.
  split; [done |]. rewrite length_app. simpl. lia.
Qed.

(** C1 as worded, with a truncated error text, does not hold: no cut-off
    [n] makes the detail the first [n] characters of the error text. A
    store that raises an error of [n + 1] characters is answered with all
    of them. *)
Lemma contact_detail_not_truncated : ¬ ∃ n, contact_detail_truncated_at n.
Proof.
  intros [n H].
  pose (msg := replicate (S n) 120%N).
  pose (f := λ (_ : list call) (_ : str) (_ : gmap str value),
               @Raise value (Exception msg)).
  pose (env := {| clock := λ _, 0%Q; db := None; create_document := Some f;
                  environ := ∅ |}).
  pose (w := {| clock_reads := 0; calls := [] |}).
  pose (payload := {| name := py "Jo"; email := py "jo@x.com";
                      message := py "Hi there" |}).
  pose (request_body :=
          VDict (<[py "message" := VStr (py "Hi there")]>
                   (<[py "email" := VStr (py "jo@x.com")]>
                      {[ py "name" := VStr (py "Jo") ]}))).
  assert (validate_ContactPayload Some request_body = inr payload) as Hv
    by (by vm_compute).
  specialize (H Some env request_body payload w f (Exception msg) Hv eq_refl eq_refl).
  rewrite (POST_contact_valid _ _ _ _ _ Hv), submit_contact_run in H.
  simpl in H. injection H as H.
  apply (f_equal length) in H. rewrite length_take in H.
  unfold msg in H. rewrite length_replicate in H. lia.
Qed.

(** ** Rejected contact requests *)

Lemma report_elem {A : Type} (k : str) (r : error_type + A) (x : ErrorDetails) :
  x ∈ report k r → loc x = [py "body"; k].
Proof.
  destruct r; simpl; [| by intros ?%elem_of_nil].
  by intros ->%list_elem_of_singleton.
Qed.

Lemma validate_ContactPayload_errors (validate_email : str → option str)
    (d : gmap str value) :
  let r_name := required d (py "name") (constrained_str 2 (Some 120%nat)) in
  let r_email := required d (py "email") (email_str validate_email) in
  let r_message := required d (py "message") (constrained_str 4 (Some 4000%nat)) in
  (∃ t, r_name = inl t) ∨ (∃ t, r_email = inl t) ∨ (∃ t, r_message = inl t) →
  validate_ContactPayload validate_email (VDict d)
  = inl (report (py "name") r_name ++ report (py "email") r_email
         ++ report (py "message") r_message).
Proof.
  intros r_name r_email r_message H. unfold validate_ContactPayload.
  fold r_name r_email r_message.
  destruct r_name, r_email, r_message; try done.
  destruct H as [[? ?] | [[? ?] | [? ?]]]; done.
Qed.

Lemma name_out_of_range_error (d : gmap str value) :
  name_out_of_range d →
  ∃ t, required d (py "name") (constrained_str 2 (Some 120%nat)) = inl t.
Proof.
  intros (s & Hs & Hlen). unfold required, constrained_str. rewrite Hs.
  destruct (Nat.ltb_spec (length s) 2); [eauto |].
  destruct (Nat.ltb_spec 120 (length s)); [eauto | lia].
Qed.

Lemma message_out_of_range_error (d : gmap str value) :
  message_out_of_range d →
  ∃ t, required d (py "message") (constrained_str 4 (Some 4000%nat)) = inl t.
Proof.
  intros (s & Hs & Hlen). unfold required, constrained_str. rewrite Hs.
  destruct (Nat.ltb_spec (length s) 4); [eauto |].
  destruct (Nat.ltb_spec 4000 (length s)); [eauto | lia].
Qed.

Lemma email_malformed_error (validate_email : str → option str)
    (d : gmap str value) :
  email_malformed validate_email d →
  required d (py "email") (email_str validate_email) = inl value_error.
Proof.
  intros (s & Hs & Hbad). unfold required, email_str. by rewrite Hs, Hbad.
Qed.

(** C3. A contact request whose name is shorter than 2 or longer than 120
    characters, or whose email the validator refuses, or whose message is
    shorter than 4 or longer than 4000 characters, is answered with status
    422 and a non-empty report; every entry of the report points at a
    field of the body, each field at fault has its entry, and the state
    is left as it was: the store has received no call. *)
Theorem contact_invalid_rejected (validate_email : str → option str)
    (env : Env) (d : gmap str value) (w : World) :
  name_out_of_range d ∨ email_malformed validate_email d ∨ message_out_of_range d →
  ∃ errs,
    POST_contact validate_email env (VDict d) w
    = ({| status := 422; body := ValidationErrors errs |}, w)
    ∧ errs ≠ []
    ∧ (∀ x, x ∈ errs → ∃ field, loc x = [py "body"; field])
    ∧ (name_out_of_range d →
       ∃ t, {| loc := [py "body"; py "name"]; err := t |} ∈ errs)
    ∧ (email_malformed validate_email d →
       {| loc := [py "body"; py "email"]; err := value_error |} ∈ errs)
    ∧ (message_out_of_range d →
       ∃ t, {| loc := [py "body"; py "message"]; err := t |} ∈ errs).
Proof.
  intros Hbad.
  pose proof (validate_ContactPayload_errors validate_email d) as Hv.
  cbv zeta in Hv. eexists. split.
  { unfold POST_contact, post. rewrite Hv; [reflexivity |].
    destruct Hbad as [H | [H | H]].
    - left. by apply name_out_of_range_error.
    - right; left. eexists. by apply email_malformed_error.
    - right; right. by apply message_out_of_range_error. }
  split.
  { destruct Hbad as [H | [H | H]].
    - apply name_out_of_range_error in H as [t ->]. done.
    - apply email_malformed_error in H as ->.
      intros [_ H]%app_eq_nil. discriminate H.
    - apply message_out_of_range_error in H as [t ->].
      intros [_ [_ H]%app_eq_nil]%app_eq_nil. discriminate H. }
  split.
  { intros x [H | [H | H]%elem_of_app]%elem_of_app;
      apply report_elem in H; eauto. }
  split; [| split].
  - intros H. apply name_out_of_range_error in H as [t ->].
    exists t. simpl. apply list_elem_of_here.
  - intros H. apply email_malformed_error in H as ->.
    apply elem_of_app. right. simpl. apply list_elem_of_here.
  - intros H. apply message_out_of_range_error in H as [t ->].
    exists t. do 2 (apply elem_of_app; right). simpl. apply list_elem_of_here.
Qed.

(** ** The diagnostics *)

Lemma test_database_run (env : Env) :
  ∃ r, test_database env = Return r
       ∧ r !! py "backend" = Some (VStr (CHECK_MARK ++ py " Running"))
       ∧ r !! py "database" = Some (VStr (database_status env))
       ∧ r !! py "database_url" = Some (presence_flag env (py "DATABASE_URL"))
       ∧ r !! py "database_name" = Some (presence_flag env (py "DATABASE_NAME")).
Proof.
  unfold test_database, test_database_body, database_status, hasattr_name,
    getattr_name.
  destruct (db env) as [[nm cs] |]; [destruct nm, cs |];
    run_handler; (eexists; split; [reflexivity |]);
    unfold initial_response, presence_flag; repeat split; by lookup_literal.
Qed.

(** C4. The diagnostics always return: the answer has status 200 for
    every store handle, and an exception met while probing it is written
    under ["database"] as a prefix followed by the first 50 characters of
    its text, at most. *)
Theorem test_database_never_raises (env : Env) :
  ∃ r, test_database env = Return r
       ∧ GET_test env = {| status := 200; body := Json (VDict r) |}
       ∧ r !! py "database"
         = Some (VStr
             match db env with
             | None => WARNING_SIGN ++ py "  Available but not initialized"
             | Some d =>
                 match db_name d with
                 | AttrRaises e =>
                     CROSS_MARK ++ py " Error: " ++ take 50 (exn_str e)
                 | _ =>
                     match list_collection_names d with
                     | Raise e =>
                         WARNING_SIGN ++ py "  Connected but Error: "
                         ++ take 50 (exn_str e)
                     | Return _ => CHECK_MARK ++ py " Connected & Working"
                     end
                 end
             end)
       ∧ ∀ e, (length (take 50 (exn_str e)) ≤ 50)%nat
              ∧ (take 50 (exn_str e)) `prefix_of` exn_str e.
Proof.
  destruct (test_database_run env) as (r & Hr & _ & Hdb & _).
  exists r. split; [done |]. split.
  { unfold GET_test, get_route. by rewrite Hr. }
  split; [exact Hdb |].
  intros e. split; [rewrite length_take; lia | apply prefix_take].
Qed.

(** Whatever the store, ["database_name"] ends up a presence flag. *)
Lemma test_database_name_is_flag (env : Env) (r : gmap str value) :
  test_database env = Return r →
  r !! py "database_name" = Some (presence_flag env (py "DATABASE_NAME")).
Proof.
  intros Hr. destruct (test_database_run env) as (r' & Hr' & _ & _ & _ & Hn).
  congruence.
Qed.

(** What the diagnostics do report of a store that answers: the first ten
    collection names and the connected state. *)
Lemma test_database_collections (env : Env) (d : Db) (v : value) (cs : list str) :
  db env = Some d →
  db_name d = AttrValue v →
  list_collection_names d = Return cs →
  ∃ r, test_database env = Return r
       ∧ r !! py "collections" = Some (VList (VStr <$> take 10 cs))
       ∧ r !! py "connection_status" = Some (VStr (py "Connected"))
       ∧ r !! py "database" = Some (VStr (CHECK_MARK ++ py " Connected & Working")).
Proof.
  intros Hd Hn Hc.
  unfold test_database, test_database_body, hasattr_name, getattr_name.
  rewrite Hd. run_handler. rewrite Hn. simpl. rewrite Hc. simpl.
  eexists. split; [reflexivity |]. repeat split; by lookup_literal.
Qed.

(** C6, on the code. For a store named ["shop"] that lists its
    collections, the answer's ["database_name"] is the presence flag of
    [DATABASE_NAME], not the name of the store. *)
Theorem test_database_name_overwritten :
  ∃ r, test_database shop_env = Return r
       ∧ r !! py "database_name" = Some (VStr (CHECK_MARK ++ py " Set"))
       ∧ r !! py "database_name" ≠ Some (VStr (py "shop")).
Proof.
  destruct (test_database_collections shop_env _ _ _ eq_refl eq_refl eq_refl)
    as (r & Hr & _).
  exists r. split; [done |].
  pose proof (test_database_name_is_flag _ _ Hr) as Hn.
  assert (r !! py "database_name" = Some (VStr (CHECK_MARK ++ py " Set"))) as Hn'
    by (rewrite Hn; by vm_compute).
  split; [done |]. rewrite Hn'. by vm_compute.
Qed.

(** ** The statements at sample requests *)

Lemma contact_store_failure_surfaced_witness :
  validate_ContactPayload needs_at_sign (VDict jo_fields) = inr jo_payload
  ∧ fst (POST_contact needs_at_sign failing_env (VDict jo_fields) fresh)
    = {| status := 500; body := Detail (py "Failed to save contact: disk full") |}.
Proof.
  assert (validate_ContactPayload needs_at_sign (VDict jo_fields) = inr jo_payload)
    as Hv by (vm_compute; reflexivity).
  split; [exact Hv |].
  exact (proj1 (contact_store_failure_surfaced needs_at_sign failing_env
                  (VDict jo_fields) jo_payload fresh failing_store disk_full
                  Hv eq_refl eq_refl)).
Defined.

Lemma checkout_always_succeeds_witness :
  validate_CheckoutPayload (VDict c1_fields) = inr c1_payload
  ∧ ∃ session_id url,
      fst (POST_checkout failing_env (VDict c1_fields) fresh)
      = {| status := 200;
           body := Json (VDict (<[py "url" := VStr url]>
                                  (<[py "sessionId" := VStr session_id]>
                                     {[ py "ok" := VBool true ]}))) |}
      ∧ session_id ≠ [] ∧ url ≠ [].
Proof.
  assert (validate_CheckoutPayload (VDict c1_fields) = inr c1_payload)
    as Hv by (vm_compute; reflexivity).
  split; [exact Hv |].
  exact (proj2 (checkout_always_succeeds failing_env (VDict c1_fields)
                  c1_payload fresh Hv)).
Defined.

Lemma contact_invalid_rejected_witness :
  name_out_of_range bad_fields
  ∧ ∃ errs,
      POST_contact needs_at_sign failing_env (VDict bad_fields) fresh
      = ({| status := 422; body := ValidationErrors errs |}, fresh)
      ∧ errs ≠ [].
Proof.
  assert (name_out_of_range bad_fields) as Hbad.
  { exists (py "J"). split; [vm_compute; reflexivity | left; vm_compute; lia]. }
  split; [exact Hbad |].
  destruct (contact_invalid_rejected needs_at_sign failing_env bad_fields fresh
              (or_introl Hbad)) as (errs & Hr & Hne & _).
  exists errs. split; [exact Hr | exact Hne].
Defined.

Lemma checkout_session_id_and_url_witness :
  validate_CheckoutPayload (VDict c1_fields) = inr c1_payload
  ∧ fst (POST_checkout failing_env (VDict c1_fields) fresh)
    = {| status := 200;
         body := Json (VDict
           (<[py "url" := VStr (py "/checkout/success?sid=sess_1700000000&course=c1")]>
              (<[py "sessionId" := VStr (py "sess_1700000000")]>
                 {[ py "ok" := VBool true ]}))) |}.
Proof.
  assert (validate_CheckoutPayload (VDict c1_fields) = inr c1_payload)
    as Hv by (vm_compute; reflexivity).
  split; [exact Hv |].
  exact (proj1 (checkout_session_id_and_url failing_env (VDict c1_fields)
                  c1_payload fresh Hv)).
Defined.

Lemma analytics_always_ok_witness :
  validate_AnalyticsEvent (VDict page_view_fields) = inr page_view
  ∧ fst (POST_analytics failing_env (VDict page_view_fields) fresh)
    = {| status := 200; body := Json (VDict {[ py "ok" := VBool true ]}) |}.
Proof.
  assert (validate_AnalyticsEvent (VDict page_view_fields) = inr page_view)
    as Hv by (vm_compute; reflexivity).
  split; [exact Hv |].
  exact (proj1 (proj2 (analytics_always_ok failing_env (VDict page_view_fields)
                         page_view fresh Hv))).
Defined.

Lemma checkout_plan_default_witness :
  c1_fields !! py "plan" = None
  ∧ validate_CheckoutPayload (VDict c1_fields) = inr c1_payload
  ∧ plan c1_payload = Some (py "standard").
Proof.
  assert (c1_fields !! py "plan" = None) as Hd by (vm_compute; reflexivity).
  assert (validate_CheckoutPayload (VDict c1_fields) = inr c1_payload)
    as Hv by (vm_compute; reflexivity).
  split; [exact Hd |]. split; [exact Hv |].
  exact (proj1 (checkout_plan_default failing_env c1_fields c1_payload fresh Hd Hv)).
Defined.

Lemma checkout_same_second_same_session_witness :
  clock failing_env (clock_reads fresh) ≠ clock failing_env (clock_reads later)
  ∧ int_of_float (clock failing_env (clock_reads fresh))
    = int_of_float (clock failing_env (clock_reads later))
  ∧ ∃ r1 r2 session_id,
      fst (create_checkout failing_env c1_payload fresh) = Return r1
      ∧ fst (create_checkout failing_env c1_payload later) = Return r2
      ∧ r1 !! py "sessionId" = Some (VStr session_id)
      ∧ r2 !! py "sessionId" = Some (VStr session_id)
      ∧ session_id
        = py "sess_" ++ int_str (int_of_float (clock failing_env (clock_reads fresh))).
Proof.
  split; [vm_compute; discriminate |].
  split; [vm_compute; reflexivity |].
  exact (checkout_same_second_same_session failing_env failing_env c1_payload
           c1_payload fresh later eq_refl).
Defined.

Lemma checkout_url_not_encoded_witness :
  validate_CheckoutPayload (VDict c1_fields) = inr c1_payload
  ∧ ∃ session_id,
      fst (POST_checkout failing_env (VDict c1_fields) fresh)
      = {| status := 200;
           body := Json (VDict (checkout_response session_id
                     (py "/checkout/success?sid=" ++ session_id
                      ++ py "&course=" ++ courseId c1_payload))) |}.
Proof.
  assert (validate_CheckoutPayload (VDict c1_fields) = inr c1_payload)
    as Hv by (vm_compute; reflexivity).
  split; [exact Hv |].
  exact (proj1 checkout_url_not_encoded failing_env (VDict c1_fields)
           c1_payload fresh Hv).
Defined.

(** * Further properties *)

(** ** What the schemas accept *)

Lemma constrained_str_ok (lo : nat) (hi : option nat) (s : str) :
  (lo ≤ length s)%nat →
  match hi with Some h => (length s ≤ h)%nat | None => True end →
  constrained_str lo hi (VStr s) = inr s.
Proof.
  intros Hlo Hhi. unfold constrained_str.
  destruct (Nat.ltb_spec (length s) lo); [lia |].
  destruct hi as [h |]; [| done].
  destruct (Nat.ltb_spec h (length s)); [lia | done].
Qed.

(** X1. The contact schema accepts a JSON object exactly when [name] is a
    string of 2 to 120 characters, [email] a string the address validator
    accepts and [message] a string of 4 to 4000 characters; the payload
    holds the name and message as sent and the address as the validator
    returns it. Keys beyond these three play no part. *)
Theorem validate_ContactPayload_accepts (validate_email : str → option str)
    (d : gmap str value) (p : ContactPayload) :
  validate_ContactPayload validate_email (VDict d) = inr p
  ↔ d !! py "name" = Some (VStr (name p))
    ∧ (2 ≤ length (name p) ≤ 120)%nat
    ∧ (∃ address, d !! py "email" = Some (VStr address)
                  ∧ validate_email address = Some (email p))
    ∧ d !! py "message" = Some (VStr (message p))
    ∧ (4 ≤ length (message p) ≤ 4000)%nat.
Proof.
  split.
  - intros Hv.
    destruct (validate_ContactPayload_inv _ _ _ Hv)
      as (d' & a & [= <-] & ? & ? & ? & ? & ? & ?).
    eauto 10.
  - intros (Hn & Hnl & (a & He & Ha) & Hm & Hml).
    unfold validate_ContactPayload, required, email_str.
    rewrite Hn, He, Hm, Ha.
    rewrite !constrained_str_ok by (simpl; lia).
    by destruct p.
Qed.

(** X2. The checkout schema accepts a JSON object exactly when [courseId]
    is a string of at least one character and [plan] is absent, null or a
    string: an absent plan becomes ["standard"], a null plan stays [None]
    (the default is not applied to it), a string, even an empty one, is
    kept. *)
Theorem validate_CheckoutPayload_accepts (d : gmap str value) (p : CheckoutPayload) :
  validate_CheckoutPayload (VDict d) = inr p
  ↔ d !! py "courseId" = Some (VStr (courseId p))
    ∧ (1 ≤ length (courseId p))%nat
    ∧ plan_parsed (d !! py "plan") (plan p).
Proof.
  unfold validate_CheckoutPayload, required, defaulted, plan_parsed. split.
  - destruct (d !! py "courseId") as [v |] eqn:Ec.
    2: { destruct (d !! py "plan") as [vp |];
           [destruct (optional (constrained_str 0 None) vp) |]; done. }
    destruct (constrained_str 1 None v) as [e | c] eqn:Ev.
    { destruct (d !! py "plan") as [vp |];
        [destruct (optional (constrained_str 0 None) vp) |]; done. }
    apply constrained_str_inv in Ev as (-> & Hlen & _).
    destruct (d !! py "plan") as [vp |] eqn:Ep.
    + destruct vp; simpl; try done; intros [= <-]; done.
    + intros [= <-]. done.
  - destruct p as [c pl]. simpl. intros (Hc & Hlen & Hp). rewrite Hc.
    rewrite constrained_str_ok by (simpl; done).
    destruct (d !! py "plan") as [vp |].
    + destruct vp; try done; simpl in *; by subst.
    + simpl in *. by subst.
Qed.

(** X3. The analytics schema accepts a JSON object exactly when [event]
    is a string of 2 to 64 characters and each of [properties] and [user]
    is absent, null or an object; absent and null both become [None], an
    object is kept whole. *)
Theorem validate_AnalyticsEvent_accepts (d : gmap str value) (ev : AnalyticsEvent) :
  validate_AnalyticsEvent (VDict d) = inr ev
  ↔ d !! py "event" = Some (VStr (event ev))
    ∧ (2 ≤ length (event ev) ≤ 64)%nat
    ∧ object_parsed (d !! py "properties") (properties ev)
    ∧ object_parsed (d !! py "user") (user ev).
Proof.
  unfold validate_AnalyticsEvent, required, defaulted, object_parsed. split.
  - destruct (d !! py "event") as [v |] eqn:Ec.
    2: { destruct (d !! py "properties") as [vp |]; [destruct (optional any_dict vp) |];
         (destruct (d !! py "user") as [vu |]; [destruct (optional any_dict vu) |]);
         done. }
    destruct (constrained_str 2 (Some 64%nat) v) as [e | c] eqn:Ev.
    { destruct (d !! py "properties") as [vp |]; [destruct (optional any_dict vp) |];
      (destruct (d !! py "user") as [vu |]; [destruct (optional any_dict vu) |]);
      done. }
    apply constrained_str_inv in Ev as (-> & Hlo & Hhi). simpl in Hhi.
    destruct (d !! py "properties") as [[] |]; simpl; try done;
      (destruct (d !! py "user") as [[] |]; simpl; try done);
      intros [= <-]; simpl; done.
  - destruct ev as [e ps us]. simpl. intros (Hc & Hlen & Hp & Hu). rewrite Hc.
    rewrite constrained_str_ok by (simpl; lia).
    destruct (d !! py "properties") as [[] |]; try done;
      (destruct (d !! py "user") as [[] |]; try done);
      simpl in *; by subst.
Qed.

(** ** Contact submissions that reach the store *)

Lemma contact_doc_fields (payload : ContactPayload) (now : datetime) :
  contact_doc payload now !! py "name" = Some (VStr (name payload))
  ∧ contact_doc payload now !! py "email" = Some (VStr (email payload))
  ∧ contact_doc payload now !! py "message" = Some (VStr (message payload))
  ∧ contact_doc payload now !! py "_type" = Some (VStr (py "contact"))
  ∧ contact_doc payload now !! py "received_at" = Some (VDatetime now).
Proof.
  unfold contact_doc, ContactPayload_dump. repeat split; by lookup_literal.
Qed.

(** X4. When the store accepts the write, a valid contact request is
    answered with status 200 and [{"ok": true, "id": <what the store
    returned>}]; the store has received exactly one call, for collection
    ["contact"], whose document holds the three validated fields, [_type]
    ["contact"] and a [received_at] read from the clock in UTC. *)
Theorem contact_saved (validate_email : str → option str) (env : Env)
    (request_body : value) (payload : ContactPayload) (w : World)
    (f : list call → str → gmap str value → outcome value) (_id : value) :
  validate_ContactPayload validate_email request_body = inr payload →
  create_document env = Some f →
  f (calls w) (py "contact")
    (contact_doc payload {| posix := clock env (clock_reads w); tz := Some UTC |})
  = Return _id →
  ∃ doc,
    POST_contact validate_email env request_body w
    = ({| status := 200;
          body := Json (VDict (<[py "id" := _id]> {[ py "ok" := VBool true ]})) |},
       {| clock_reads := S (clock_reads w);
          calls := calls w ++ [{| collection := py "contact"; document := doc |}] |})
    ∧ doc !! py "name" = Some (VStr (name payload))
    ∧ doc !! py "email" = Some (VStr (email payload))
    ∧ doc !! py "message" = Some (VStr (message payload))
    ∧ doc !! py "_type" = Some (VStr (py "contact"))
    ∧ doc !! py "received_at"
      = Some (VDatetime {| posix := clock env (clock_reads w); tz := Some UTC |}).
Proof.
  intros Hv Hf Hid. rewrite (POST_contact_valid _ _ _ _ _ Hv).
  rewrite submit_contact_run, Hf. unfold reading. rewrite Hid. simpl.
  eexists. split; [reflexivity |]. apply contact_doc_fields.
Qed.

(** X5. Without a store, a valid contact request is answered with status
    200 and exactly [{"ok": true}], no [id], and nothing is recorded
    anywhere: the submission is accepted and lost. *)
Theorem contact_without_store (validate_email : str → option str) (env : Env)
    (request_body : value) (payload : ContactPayload) (w : World) :
  validate_ContactPayload validate_email request_body = inr payload →
  create_document env = None →
  fst (POST_contact validate_email env request_body w)
  = {| status := 200; body := Json (VDict {[ py "ok" := VBool true ]}) |}
  ∧ calls (snd (POST_contact validate_email env request_body w)) = calls w.
Proof.
  intros Hv Hf. rewrite (POST_contact_valid _ _ _ _ _ Hv).
  rewrite submit_contact_run, Hf. done.
Qed.

(** X6. Nothing is deduplicated: the same valid contact request sent twice
    to a configured store makes two calls to it, whether the first write
    succeeded or not, and the two documents agree on every key other than
    [received_at]. *)
Theorem contact_twice_two_calls (validate_email : str → option str) (env : Env)
    (request_body : value) (payload : ContactPayload) (w : World) :
  validate_ContactPayload validate_email request_body = inr payload →
  is_Some (create_document env) →
  let w1 := snd (POST_contact validate_email env request_body w) in
  let w2 := snd (POST_contact validate_email env request_body w1) in
  ∃ c1 c2,
    calls w2 = calls w ++ [c1; c2]
    ∧ collection c1 = py "contact" ∧ collection c2 = py "contact"
    ∧ ∀ k, k ≠ py "received_at" → document c1 !! k = document c2 !! k.
Proof.
  intros Hv [f Hf] w1 w2. unfold w2, w1.
  rewrite !(POST_contact_valid _ _ _ _ _ Hv). cbn [snd].
  rewrite (submit_contact_run env payload w), Hf.
  match goal with
  | |- context [snd (match ?o with Return _ => (_, ?l) | Raise _ => (_, ?l') end)] =>
      replace (snd (match o with Return _id => _ | Raise e => _ end)) with l
        by (by destruct o)
  end.
  rewrite submit_contact_run, Hf. cbn [calls clock_reads].
  match goal with
  | |- context [snd (match ?o with Return _ => (_, ?l) | Raise _ => (_, ?l') end)] =>
      replace (snd (match o with Return _id => _ | Raise e => _ end)) with l
        by (by destruct o)
  end.
  cbn [calls]. eexists _, _. split; [by rewrite <- app_assoc |].
  split; [done |]. split; [done |].
  intros k Hk. cbn [document]. unfold contact_doc.
  by rewrite !(lookup_insert_ne _ (py "received_at") k) by congruence.
Qed.

(** ** The answers the routes can give *)

(** X7. Whatever the body, the clock and the store, the checkout and
    analytics routes answer with status 422 or 200 and nothing else: a
    failure of the store never shows. The answer is 422 exactly when the
    schema rejects the body, and then the state is untouched: no clock
    read, no call to the store. *)
Theorem checkout_analytics_status (env : Env) (request_body : value) (w : World) :
  ((∃ errs, validate_CheckoutPayload request_body = inl errs
            ∧ POST_checkout env request_body w
              = ({| status := 422; body := ValidationErrors errs |}, w))
   ∨ (∃ p r, validate_CheckoutPayload request_body = inr p
             ∧ fst (POST_checkout env request_body w)
               = {| status := 200; body := Json (VDict r) |}))
  ∧ ((∃ errs, validate_AnalyticsEvent request_body = inl errs
              ∧ POST_analytics env request_body w
                = ({| status := 422; body := ValidationErrors errs |}, w))
     ∨ (∃ ev r, validate_AnalyticsEvent request_body = inr ev
                ∧ fst (POST_analytics env request_body w)
                  = {| status := 200; body := Json (VDict r) |})).
Proof.
  split.
  - unfold POST_checkout, post.
    destruct (validate_CheckoutPayload request_body) as [errs | p]; [left; eauto |].
    right. destruct (create_checkout_run env p w) as (w' & -> & _). eauto.
  - unfold POST_analytics, post.
    destruct (validate_AnalyticsEvent request_body) as [errs | ev]; [left; eauto |].
    right. destruct (track_event_run env ev w) as (w' & -> & _). eauto.
Qed.


(** ** What the checkout handler persists *)

Lemma checkout_record_fields (payload : CheckoutPayload)
    (session_id session_url : str) (now : datetime) :
  checkout_record payload session_id session_url now !! py "_type"
  = Some (VStr (py "checkout"))
  ∧ checkout_record payload session_id session_url now !! py "courseId"
    = Some (VStr (courseId payload))
  ∧ checkout_record payload session_id session_url now !! py "session_id"
    = Some (VStr session_id)
  ∧ checkout_record payload session_id session_url now !! py "session_url"
    = Some (VStr session_url)
  ∧ checkout_record payload session_id session_url now !! py "created_at"
    = Some (VDatetime now).
Proof. unfold checkout_record. repeat split; by lookup_literal. Qed.

(** X9. With a store configured, a valid checkout request makes exactly
    one call to it, for collection ["checkout"], and the document agrees
    with the answer: its [session_id] and [session_url] are the
    [sessionId] and [url] sent back, its [courseId] is the one requested,
    and its [created_at] is a second reading of the clock, in UTC. *)
Theorem checkout_record_matches_response (env : Env) (request_body : value)
    (payload : CheckoutPayload) (w : World) :
  validate_CheckoutPayload request_body = inr payload →
  is_Some (create_document env) →
  ∃ r c,
    fst (POST_checkout env request_body w)
    = {| status := 200; body := Json (VDict r) |}
    ∧ calls (snd (POST_checkout env request_body w)) = calls w ++ [c]
    ∧ collection c = py "checkout"
    ∧ document c !! py "_type" = Some (VStr (py "checkout"))
    ∧ document c !! py "courseId" = Some (VStr (courseId payload))
    ∧ is_Some (r !! py "sessionId")
    ∧ document c !! py "session_id" = r !! py "sessionId"
    ∧ document c !! py "session_url" = r !! py "url"
    ∧ document c !! py "created_at"
      = Some (VDatetime {| posix := clock env (S (clock_reads w)); tz := Some UTC |}).
Proof.
  intros Hv [f Hf]. rewrite (POST_checkout_valid _ _ _ _ Hv). simpl.
  destruct (create_checkout_run env payload w) as (w' & -> & Hcalls).
  rewrite Hf in Hcalls. simpl. eexists _, _.
  split; [reflexivity |]. split; [exact Hcalls |]. split; [done |].
  simpl.
  destruct (checkout_record_fields payload
              (session_id_of (reading env w None))
              (session_url_of (session_id_of (reading env w None)) payload)
              (reading env (after_read w) (Some UTC)))
    as (Ht & Hc & Hs & Hu & Hn).
  destruct (checkout_response_fields
              (session_id_of (reading env w None))
              (session_url_of (session_id_of (reading env w None)) payload))
    as (_ & Hrs & Hru).
  rewrite Hrs, Hru. repeat split; eauto.
Qed.

(** X10. The answer to a checkout request does not depend on the store:
    two deployments whose clocks read the same answer alike, whether
    their stores are absent, accept or raise. *)
Theorem checkout_response_ignores_store (env1 env2 : Env) (request_body : value)
    (w1 w2 : World) :
  clock env1 (clock_reads w1) = clock env2 (clock_reads w2) →
  fst (POST_checkout env1 request_body w1) = fst (POST_checkout env2 request_body w2).
Proof.
  intros Hclock. unfold POST_checkout, post.
  destruct (validate_CheckoutPayload request_body) as [errs | p]; [done |].
  destruct (create_checkout_run env1 p w1) as (w1' & -> & _).
  destruct (create_checkout_run env2 p w2) as (w2' & -> & _).
  unfold reading. by rewrite Hclock.
Qed.

(** X11. The answer to an analytics request depends on the body alone:
    not on the store, not on the clock, not on what came before. *)
Theorem analytics_response_depends_on_body_only (env1 env2 : Env)
    (request_body : value) (w1 w2 : World) :
  fst (POST_analytics env1 request_body w1)
  = fst (POST_analytics env2 request_body w2).
Proof.
  unfold POST_analytics, post.
  destruct (validate_AnalyticsEvent request_body) as [errs | ev]; [done |].
  destruct (track_event_run env1 ev w1) as (w1' & -> & _).
  by destruct (track_event_run env2 ev w2) as (w2' & -> & _).
Qed.

Lemma int_str_inj (a b : Z) : int_str a = int_str b → a = b.
Proof.
  intros H. pose proof (str_int_int_str a) as Ha.
  rewrite H, str_int_int_str in Ha. congruence.
Qed.

(** X12. Session ids tell seconds apart: two checkout calls that answer
    with the same session id read clocks that agree after truncation to
    whole seconds. Together with C9, equal ids mean exactly equal
    seconds. *)
Theorem checkout_same_session_same_second (env1 env2 : Env)
    (p1 p2 : CheckoutPayload) (w1 w2 : World) (r1 r2 : gmap str value) :
  fst (create_checkout env1 p1 w1) = Return r1 →
  fst (create_checkout env2 p2 w2) = Return r2 →
  r1 !! py "sessionId" = r2 !! py "sessionId" →
  int_of_float (clock env1 (clock_reads w1))
  = int_of_float (clock env2 (clock_reads w2)).
Proof.
  destruct (create_checkout_run env1 p1 w1) as (w1' & -> & _).
  destruct (create_checkout_run env2 p2 w2) as (w2' & -> & _).
  intros [= <-] [= <-] H.
  destruct (checkout_response_fields (session_id_of (reading env1 w1 None))
              (session_url_of (session_id_of (reading env1 w1 None)) p1))
    as (_ & H1 & _).
  destruct (checkout_response_fields (session_id_of (reading env2 w2 None))
              (session_url_of (session_id_of (reading env2 w2 None)) p2))
    as (_ & H2 & _).
  rewrite H1, H2 in H. injection H as H.
  by apply int_str_inj in H.
Qed.

(** ** Reading the checkout url back *)

Lemma split_on_none (sep : char) (s : str) : sep ∉ s → split_on sep s = [s].
Proof.
  induction s as [| c s IH]; intros Hsep; simpl; [done |].
  apply not_elem_of_cons in Hsep as [Hc Hs].
  destruct (N.eqb_spec c sep) as [-> | _]; [done |]. by rewrite IH.
Qed.

Lemma query_param_of_url (k ds c : str) :
  38%N ∉ ds →
  query_param k (py "/checkout/success"
                 ++ 63%N :: (py "sid=sess_" ++ ds) ++ 38%N :: py "course=" ++ c)
  = assoc k ((py "sid", py "sess_" ++ ds)
             :: (partition 61%N <$> split_on 38%N (py "course=" ++ c))).
Proof.
  intros Hds. unfold query_param.
  rewrite partition_app by literal_elem. cbn [snd]. unfold parse_qsl.
  rewrite split_on_app.
  - rewrite fmap_cons. reflexivity.
  - intros [H | H]%elem_of_app; [revert H; literal_elem | done].
Qed.

Lemma int_str_no_ampersand (n : Z) : 38%N ∉ int_str n.
Proof. intros H. apply int_str_elem in H. lia. Qed.

(** X13. A client that cuts the query of the answered url at every
    ampersand, and each field at its first equals sign, always reads the
    session id back from [sid]; it reads the course id back from [course]
    exactly when the course id has no ampersand in it. *)
Theorem checkout_url_round_trip (env : Env) (payload : CheckoutPayload) (w : World) :
  ∃ r session_id url,
    fst (create_checkout env payload w) = Return r
    ∧ r !! py "sessionId" = Some (VStr session_id)
    ∧ r !! py "url" = Some (VStr url)
    ∧ query_param (py "sid") url = Some session_id
    ∧ (query_param (py "course") url = Some (courseId payload)
       ↔ 38%N ∉ courseId payload).
Proof.
  destruct (create_checkout_run env payload w) as (w' & -> & _).
  eexists _, _, _. split; [reflexivity |].
  split; [apply checkout_response_fields |].
  split; [apply checkout_response_fields |].
  rewrite session_url_shape.
  rewrite !query_param_of_url by apply int_str_no_ampersand.
  split.
  { cbn [assoc]. by rewrite decide_True. }
  cbn [assoc]. rewrite decide_False by key_ne.
  destruct (decide (38%N ∈ courseId payload)) as [Hin | Hout].
  - apply list_elem_of_split_l in Hin as (a & b & Hc & Ha). rewrite Hc.
    change (py "course=" ++ a ++ 38%N :: b)
      with ((py "course" ++ 61%N :: a) ++ 38%N :: b).
    rewrite split_on_app.
    2: { intros [H | H]%elem_of_app; [revert H; literal_elem |].
         apply elem_of_cons in H as [H | H]; [discriminate | done]. }
    rewrite fmap_cons, partition_app by literal_elem.
    cbn [assoc]. rewrite decide_True by done.
    split.
    + intros [= H]. apply (f_equal length) in H.
      rewrite length_app in H. simpl in H. lia.
    + intros H. exfalso. apply H. apply elem_of_app. right. apply list_elem_of_here.
  - rewrite split_on_none.
    2: { intros [H | H]%elem_of_app; [revert H; literal_elem | done]. }
    change (py "course=" ++ courseId payload)
      with (py "course" ++ 61%N :: courseId payload).
    cbn [fmap list_fmap]. rewrite partition_app by literal_elem.
    cbn [assoc]. rewrite decide_True by done. done.
Qed.

(** ** More on the diagnostics *)

Lemma test_database_connection (env : Env) :
  ∃ r, test_database env = Return r
       ∧ r !! py "connection_status"
         = Some (VStr match db env with
                      | Some d =>
                          match db_name d with
                          | AttrRaises _ => py "Not Connected"
                          | _ => py "Connected"
                          end
                      | None => py "Not Connected"
                      end)
       ∧ r !! py "collections"
         = Some (VList (VStr <$>
                   match db env with
                   | Some d =>
                       match db_name d, list_collection_names d with
                       | AttrRaises _, _ => []
                       | _, Return cs => take 10 cs
                       | _, Raise _ => []
                       end
                   | None => []
                   end)).
Proof.
  unfold test_database, test_database_body, hasattr_name, getattr_name.
  destruct (db env) as [[nm cs] |]; [destruct nm, cs |];
    run_handler; (eexists; split; [reflexivity |]);
    unfold initial_response; split; by lookup_literal.
Qed.

(** X14. The diagnostics report has the same six keys whatever the store
    handle does: [backend], [database], [database_url], [database_name],
    [connection_status] and [collections]. *)
Theorem test_database_keys (env : Env) :
  ∃ r, test_database env = Return r ∧ dom r = report_keys.
Proof.
  unfold test_database, test_database_body, hasattr_name, getattr_name.
  destruct (db env) as [[nm cs] |]; [destruct nm, cs |];
    run_handler; (eexists; split; [reflexivity |]);
    unfold initial_response, report_keys;
    rewrite !dom_insert_L, dom_singleton_L; set_solver.
Qed.

(** X15. The placeholders the report starts from never reach the caller:
    ["database"] is never the initial [Not Available] text (a missing
    store reads [Available but not initialized]), and [database_url] and
    [database_name] are never null. *)
Theorem test_database_placeholders_overwritten (env : Env) :
  ∃ r, test_database env = Return r
       ∧ r !! py "database" ≠ Some (VStr (CROSS_MARK ++ py " Not Available"))
       ∧ (db env = None →
          r !! py "database"
          = Some (VStr (WARNING_SIGN ++ py "  Available but not initialized")))
       ∧ r !! py "database_url" ≠ Some VNone
       ∧ r !! py "database_name" ≠ Some VNone.
Proof.
  destruct (test_database_run env) as (r & Hr & _ & Hd & Hu & Hn).
  exists r. split; [done |]. rewrite Hd, Hu, Hn. unfold database_status.
  split; [| split; [by intros -> | by split]].
  destruct (db env) as [[nm cs] |]; [destruct nm, cs |]; simpl;
    intros [= H]; vm_compute in H; discriminate H.
Qed.

(** X16. [connection_status] reads [Connected] exactly when a store handle
    is present and looking up its name did not raise; it reads so even
    when listing the collections failed. *)
Theorem test_database_connected_iff (env : Env) :
  ∃ r, test_database env = Return r
       ∧ (r !! py "connection_status" = Some (VStr (py "Connected"))
          ↔ ∃ d, db env = Some d ∧ ∀ e, db_name d ≠ AttrRaises e).
Proof.
  destruct (test_database_connection env) as (r & Hr & Hs & _).
  exists r. split; [done |]. rewrite Hs.
  destruct (db env) as [d |]; [destruct (db_name d) eqn:En |].
  - split; [intros _; exists d; split; [done | congruence] | done].
  - split; [intros _; exists d; split; [done | congruence] | done].
  - split; [intros [= H]; vm_compute in H; discriminate H |].
    intros (d' & [= <-] & Hne). by destruct (Hne e).
  - split; [intros [= H]; vm_compute in H; discriminate H |].
    by intros (d' & [=] & _).
Qed.

(** X17. The report lists at most ten collections: the first ten of what
    the store lists, in its order, when the handle answers; none when the
    handle is missing, when looking up its name raised, or when the
    listing itself raised. *)
Theorem test_database_collections_bounded (env : Env) :
  ∃ r names,
    test_database env = Return r
    ∧ r !! py "collections" = Some (VList (VStr <$> names))
    ∧ (length names ≤ 10)%nat
    ∧ (∀ d cs, db env = Some d → list_collection_names d = Return cs →
               (∀ e, db_name d ≠ AttrRaises e) → names = take 10 cs)
    ∧ (∀ d e, db env = Some d → list_collection_names d = Raise e → names = [])
    ∧ (∀ d e, db env = Some d → db_name d = AttrRaises e → names = [])
    ∧ (db env = None → names = []).
Proof.
  destruct (test_database_connection env) as (r & Hr & _ & Hc).
  eexists r, _. split; [done |]. split; [exact Hc |].
  destruct (db env) as [d |].
  - destruct (db_name d) eqn:En, (list_collection_names d) eqn:El;
      (split; [rewrite ?length_take; cbn [length]; lia |]);
      repeat split; intros; simplify_eq; try done;
      first [congruence | exfalso; eauto].
  - repeat split; intros; simplify_eq; simpl; try done; lia.
Qed.

(** X18. [database_url] reads [Set] exactly when the environment variable
    [DATABASE_URL] holds a non-empty string, and [Not Set] otherwise; the
    store plays no part in it. *)
Theorem test_database_url_flag (env : Env) :
  ∃ r, test_database env = Return r
       ∧ (r !! py "database_url" = Some (VStr (CHECK_MARK ++ py " Set"))
          ↔ ∃ v, environ env !! py "DATABASE_URL" = Some v ∧ v ≠ [])
       ∧ (r !! py "database_url" = Some (VStr (CROSS_MARK ++ py " Not Set"))
          ↔ environ env !! py "DATABASE_URL" = None
            ∨ environ env !! py "DATABASE_URL" = Some []).
Proof.
  destruct (test_database_run env) as (r & Hr & _ & _ & Hu & _).
  exists r. split; [done |]. rewrite Hu. unfold presence_flag, getenv_truthy.
  destruct (environ env !! py "DATABASE_URL") as [[| c v] |].
  - split; split.
    + intros [= H]; vm_compute in H; discriminate H.
    + intros (v & [= <-] & Hv). done.
    + auto.
    + done.
  - split; split.
    + intros _. eexists. split; [done | discriminate].
    + done.
    + intros [= H]; vm_compute in H; discriminate H.
    + intros [H | H]; discriminate H.
  - split; split.
    + intros [= H]; vm_compute in H; discriminate H.
    + by intros (v & [=] & _).
    + auto.
    + done.
Qed.

(** ** The further statements at sample requests *)

Lemma validate_ContactPayload_accepts_witness :
  validate_ContactPayload needs_at_sign (VDict jo_fields) = inr jo_payload.
Proof.
  apply (validate_ContactPayload_accepts needs_at_sign jo_fields jo_payload).
  split; [vm_compute; reflexivity |]. split; [vm_compute; lia |].
  split; [exists (py "jo@x.com"); split; vm_compute; reflexivity |].
  split; [vm_compute; reflexivity | vm_compute; lia].
Defined.

Lemma validate_CheckoutPayload_accepts_witness :
  validate_CheckoutPayload (VDict c1_fields) = inr c1_payload.
Proof.
  apply (validate_CheckoutPayload_accepts c1_fields c1_payload).
  split; [vm_compute; reflexivity |]. split; [vm_compute; lia |].
  vm_compute; reflexivity.
Defined.

Lemma validate_AnalyticsEvent_accepts_witness :
  validate_AnalyticsEvent (VDict page_view_fields) = inr page_view.
Proof.
  apply (validate_AnalyticsEvent_accepts page_view_fields page_view).
  split; [vm_compute; reflexivity |]. split; [vm_compute; lia |].
  split; vm_compute; reflexivity.
Defined.

Lemma contact_saved_witness :
  validate_ContactPayload needs_at_sign (VDict jo_fields) = inr jo_payload
  ∧ fst (POST_contact needs_at_sign working_env (VDict jo_fields) fresh)
    = {| status := 200;
         body := Json (VDict (<[py "id" := VStr (py "doc_0")]>
                                {[ py "ok" := VBool true ]})) |}.
Proof.
  assert (validate_ContactPayload needs_at_sign (VDict jo_fields) = inr jo_payload)
    as Hv by (vm_compute; reflexivity).
  split; [exact Hv |].
  destruct (contact_saved needs_at_sign working_env (VDict jo_fields) jo_payload
              fresh counting_store (VStr (py "doc_0")) Hv eq_refl eq_refl)
    as (doc & Hr & _).
  rewrite Hr. reflexivity.
Defined.

Lemma contact_without_store_witness :
  validate_ContactPayload needs_at_sign (VDict jo_fields) = inr jo_payload
  ∧ fst (POST_contact needs_at_sign bare_env (VDict jo_fields) fresh)
    = {| status := 200; body := Json (VDict {[ py "ok" := VBool true ]}) |}.
Proof.
  assert (validate_ContactPayload needs_at_sign (VDict jo_fields) = inr jo_payload)
    as Hv by (vm_compute; reflexivity).
  split; [exact Hv |].
  exact (proj1 (contact_without_store needs_at_sign bare_env (VDict jo_fields)
                  jo_payload fresh Hv eq_refl)).
Defined.

Lemma contact_twice_two_calls_witness :
  validate_ContactPayload needs_at_sign (VDict jo_fields) = inr jo_payload
  ∧ ∃ c1 c2,
      calls (snd (POST_contact needs_at_sign failing_env (VDict jo_fields)
                    (snd (POST_contact needs_at_sign failing_env
                            (VDict jo_fields) fresh))))
      = [c1; c2].
Proof.
  assert (validate_ContactPayload needs_at_sign (VDict jo_fields) = inr jo_payload)
    as Hv by (vm_compute; reflexivity).
  split; [exact Hv |].
  destruct (contact_twice_two_calls needs_at_sign failing_env (VDict jo_fields)
              jo_payload fresh Hv (ex_intro _ failing_store eq_refl))
    as (c1 & c2 & Hc & _).
  exists c1, c2. exact Hc.
Defined.

Lemma checkout_record_matches_response_witness :
  validate_CheckoutPayload (VDict c1_fields) = inr c1_payload
  ∧ ∃ c, calls (snd (POST_checkout working_env (VDict c1_fields) fresh)) = [c]
         ∧ document c !! py "session_id" = Some (VStr (py "sess_1700000000")).
Proof.
  assert (validate_CheckoutPayload (VDict c1_fields) = inr c1_payload)
    as Hv by (vm_compute; reflexivity).
  split; [exact Hv |].
  destruct (checkout_record_matches_response working_env (VDict c1_fields)
              c1_payload fresh Hv (ex_intro _ counting_store eq_refl))
    as (r & c & Hr & Hc & _ & _ & _ & _ & Hs & _).
  exists c. split; [exact Hc |]. rewrite Hs.
  assert (r = c1_response) as -> by (injection Hr as <-; vm_compute; reflexivity).
  vm_compute; reflexivity.
Defined.

Lemma checkout_response_ignores_store_witness :
  create_document failing_env ≠ create_document bare_env
  ∧ fst (POST_checkout failing_env (VDict c1_fields) fresh)
    = fst (POST_checkout bare_env (VDict c1_fields) fresh).
Proof.
  split; [discriminate |].
  exact (checkout_response_ignores_store failing_env bare_env (VDict c1_fields)
           fresh fresh eq_refl).
Defined.

Lemma checkout_same_session_same_second_witness :
  fst (create_checkout failing_env c1_payload fresh) = Return c1_response
  ∧ fst (create_checkout working_env c1_payload later) = Return c1_response
  ∧ int_of_float (clock failing_env (clock_reads fresh))
    = int_of_float (clock working_env (clock_reads later)).
Proof.
  assert (fst (create_checkout failing_env c1_payload fresh) = Return c1_response)
    as H1 by (vm_compute; reflexivity).
  assert (fst (create_checkout working_env c1_payload later) = Return c1_response)
    as H2 by (vm_compute; reflexivity).
  split; [exact H1 |]. split; [exact H2 |].
  exact (checkout_same_session_same_second failing_env working_env c1_payload
           c1_payload fresh later c1_response c1_response H1 H2 eq_refl).
Defined.
